(** * Chronicle-Ethiopia/Admin: session state and role-based access control

    A shallow embedding of [src/contexts/AuthContext.tsx] (the [AuthProvider]
    component: [fetchUserProfile], [refreshProfile], [signOut],
    [hasPermission], [getInitialSession] and the [onAuthStateChange]
    subscriber) and of [components/auth/ProtectedRoute.tsx] ([ProtectedRoute],
    [AdminRoute], [ModeratorRoute], [EditorRoute]).

    - Plain data (profiles, users, sessions) are records; the [permissions]
      column, a [Record<string, any> | null], is an optional finite map from
      strings to JavaScript values.
    - The asynchronous functions are terms of a small free monad [Prog]:
      React state setters, notices and [await]s of the two remote
      collaborators are its instructions.  A program is run either to
      completion against an environment ([trace]), or one synchronous segment
      at a time, interleaved with other pending programs ([step]), which is how
      the JavaScript event loop runs them.
    - The route table of [App.tsx] is a list of entries with their guard.
    - The handlers of the pages that sign users in and out
      ([LoginPage.handleLogin], [LoginPage.updateUserLoginInfo],
      [SettingsPage.handlePasswordUpdate], [ProfilePage.handleLogout]) are
      programs of a second free monad [Ui] over the effects of a page; a
      function of the context called from a page is embedded with [lift]. *)

From stdpp Require Import base option list strings gmap.

Open Scope string_scope.

(** ** Data model *)

(** [role: 'user' | 'admin' | 'moderator' | 'editor'] *)
Inductive Role := user | admin | moderator | editor.

#[global] Instance Role_eq_dec : EqDecision Role.
Proof. solve_decision. Defined.

(** The string literal a role stands for. *)
Definition role_name (r : Role) : string :=
  match r with
  | user => "user"
  | admin => "admin"
  | moderator => "moderator"
  | editor => "editor"
  end.

(** The values a [permissions] entry can hold ([any]). *)
Inductive JsValue :=
| JsUndefined
| JsNull
| JsBool (b : bool)
| JsNumber (n : Z)
| JsString (s : string)
| JsObject.

(** [v === true] *)
Definition strict_eq_true (v : JsValue) : bool :=
  match v with
  | JsBool true => true
  | _ => false
  end.

(** [obj[key]] on a plain object: a missing key reads as [undefined]. *)
Definition js_get (obj : gmap string JsValue) (key : string) : JsValue :=
  default JsUndefined (obj !! key).

(** The display attributes of [interface UserProfile]; the session logic
    passes them through untouched. *)
Record ProfileAttrs := {
  age : option Z;
  gender : option string;
  phone : option string;
  bio : option string;
  profile_image_url : option string;
  badge : option string;
  twitter : option string;
  facebook : option string;
  linkedin : option string;
  instagram : option string;
  github : option string;
  youtube : option string;
  website : option string;
  show_phone : option bool;
  background_image_url : option string;
  last_login_at : option string;
  login_count : option Z
}.

Definition no_attrs : ProfileAttrs :=
  {| age := None; gender := None; phone := None; bio := None;
     profile_image_url := None; badge := None; twitter := None;
     facebook := None; linkedin := None; instagram := None; github := None;
     youtube := None; website := None; show_phone := None;
     background_image_url := None; last_login_at := None;
     login_count := None |}.

(** [interface UserProfile] *)
Record UserProfile := {
  id : string;
  full_name : string;
  attrs : ProfileAttrs;
  role : Role;
  is_active : bool;
  blocked : bool;
  permissions : option (gmap string JsValue)
}.

(** The fields of supabase's [User] that the code reads. *)
Record User := {
  user_id : string;
  email : option string
}.

(** The fields of supabase's [Session] that the code reads ([session.user]). *)
Record Session := {
  session_user : User;
  access_token : string
}.

(** The three [useState] cells of [AuthProvider]. *)
Record AuthState := {
  st_user : option User;
  st_profile : option UserProfile;
  isLoading : bool
}.

(** [useState(null)], [useState(null)], [useState(true)] *)
Definition initial_state : AuthState :=
  {| st_user := None; st_profile := None; isLoading := true |}.

(** [isAuthenticated: !!user && !!profile] *)
Definition isAuthenticated (s : AuthState) : bool :=
  bool_decide (is_Some (st_user s)) && bool_decide (is_Some (st_profile s)).

(** [profile?.role === r] *)
Definition role_is (s : AuthState) (r : Role) : bool :=
  match st_profile s with
  | Some p => bool_decide (role p = r)
  | None => false
  end.

Definition isAdmin (s : AuthState) : bool := role_is s admin.
Definition isModerator (s : AuthState) : bool := role_is s moderator.
Definition isEditor (s : AuthState) : bool := role_is s editor.

(** ** Capability check *)

(** The object literal [rolePermissions]; [admin] has no entry. *)
Definition rolePermissions (r : string) : option (list string) :=
  if decide (r = "moderator") then
    Some ["moderate_content"; "manage_comments"; "view_analytics"]
  else if decide (r = "editor") then
    Some ["create_content"; "edit_content"; "manage_posts"]
  else if decide (r = "user") then
    Some ["view_content"; "create_comments"]
  else None.

(** [arr.includes(x)] on an array of strings. *)
Definition includes (arr : list string) (x : string) : bool :=
  bool_decide (x ∈ arr).

(** [hasPermission(permission)], reading [profile] from the state. *)
Definition hasPermission (s : AuthState) (permission : string) : bool :=
  match st_profile s with
  | None => false
  | Some profile =>
      if decide (role profile = admin) then true
      else
        match permissions profile with
        | Some perms => strict_eq_true (js_get perms permission)
        | None =>
            match rolePermissions (role_name (role profile)) with
            | Some arr => includes arr permission
            | None => false
            end
        end
  end.

(** ** Route guards *)

(** What a guard renders.  [children] and [fallback] are opaque nodes of the
    caller, named by a string here. *)
Inductive View :=
| LoadingView
| NavigateTo (to : string) (from : string)
| Children (node : string)
| Fallback (node : string)
| AccessDenied (currentRole : string) (requiredRole : string).

(** [profile?.role || 'Unknown'] *)
Definition role_or_unknown (s : AuthState) : string :=
  match st_profile s with
  | Some p => role_name (role p)
  | None => "Unknown"
  end.

(** [ProtectedRoute({children, requiredRole, requireAuth, fallback})] rendered
    at [location] in the state [s]. *)
Definition ProtectedRoute (s : AuthState) (location : string)
    (children : string) (requiredRole : option Role) (requireAuth : bool)
    (fallback : option string) : View :=
  if isLoading s then LoadingView
  else if requireAuth && negb (isAuthenticated s) then
    NavigateTo "/login" location
  else
    match requiredRole with
    | Some r =>
        if negb (role_is s r) then
          if role_is s admin then Children children
          else
            match fallback with
            | Some f => Fallback f
            | None => AccessDenied (role_or_unknown s) (role_name r)
            end
        else Children children
    | None => Children children
    end.

(** [AdminRoute]: [<ProtectedRoute requiredRole="admin">] *)
Definition AdminRoute (s : AuthState) (location children : string) : View :=
  ProtectedRoute s location children (Some admin) true None.

Definition moderator_fallback : string :=
  "This page requires moderator or admin privileges.".

Definition editor_fallback : string :=
  "This page requires editor, moderator, or admin privileges.".

(** [ModeratorRoute] *)
Definition ModeratorRoute (s : AuthState) (location children : string) : View :=
  let hasAccess := role_is s admin || role_is s moderator in
  if negb hasAccess then
    ProtectedRoute s location children (Some moderator) true
      (Some moderator_fallback)
  else Children children.

(** [profile?.role || ''] *)
Definition role_or_empty (s : AuthState) : string :=
  match st_profile s with
  | Some p => role_name (role p)
  | None => ""
  end.

(** [EditorRoute] *)
Definition EditorRoute (s : AuthState) (location children : string) : View :=
  let hasAccess := includes ["admin"; "moderator"; "editor"] (role_or_empty s) in
  if negb hasAccess then
    ProtectedRoute s location children (Some editor) true
      (Some editor_fallback)
  else Children children.

(** ** The remote collaborators *)

(** [{ data, error }] of [supabaseAdmin.from('profiles').select('*')
    .eq('id', userId).single()] *)
Record PostgrestSingle := {
  data : option UserProfile;
  error : option string
}.

(** [{ data: { session }, error }] of [supabase.auth.getSession()] *)
Record SessionResult := {
  session : option Session;
  session_error : option string
}.

(** [{ error }] of [supabase.auth.signOut()]; the code never reads it. *)
Record SignOutResult := {
  signout_error : option string
}.

(** The awaited remote calls. *)
Inductive Call :=
| AuthGetSession
| ProfilesSelectSingle (userId : string)
| AuthSignOut.

Definition Response (c : Call) : Type :=
  match c with
  | AuthGetSession => SessionResult
  | ProfilesSelectSingle _ => PostgrestSingle
  | AuthSignOut => SignOutResult
  end.

(** How a promise settles. *)
Inductive Outcome (A : Type) :=
| Resolved (a : A)
| Rejected (reason : string).
Arguments Resolved {A} a.
Arguments Rejected {A} reason.

(** [toast.success], [toast.error], [console.error], [console.log] *)
Inductive Notice :=
| ToastSuccess (msg : string)
| ToastError (msg : string)
| ConsoleError (msg : string)
| ConsoleLog (msg : string).

(** ** Asynchronous programs *)

(** The body of an [async] function: it returns ([Ret]), throws ([Throw]),
    calls a state setter or emits a notice and goes on, or suspends at an
    [await] until the promise settles. *)
Inductive Prog (R : Type) : Type :=
| Ret (r : R)
| Throw (reason : string)
| SetUser (u : option User) (k : Prog R)
| SetProfile (p : option UserProfile) (k : Prog R)
| SetIsLoading (b : bool) (k : Prog R)
| Notify (n : Notice) (k : Prog R)
| Await (c : Call) (k : Outcome (Response c) -> Prog R).
Arguments Ret {R} r.
Arguments Throw {R} reason.
Arguments SetUser {R} u k.
Arguments SetProfile {R} p k.
Arguments SetIsLoading {R} b k.
Arguments Notify {R} n k.
Arguments Await {R} c k.

Fixpoint bind {R S : Type} (p : Prog R) (f : R -> Prog S) : Prog S :=
  match p with
  | Ret r => f r
  | Throw e => Throw e
  | SetUser u k => SetUser u (bind k f)
  | SetProfile q k => SetProfile q (bind k f)
  | SetIsLoading b k => SetIsLoading b (bind k f)
  | Notify n k => Notify n (bind k f)
  | Await c k => Await c (fun o => bind (k o) f)
  end.

#[global] Instance Prog_ret : MRet Prog := @Ret.
#[global] Instance Prog_bind : MBind Prog := fun R S f p => bind p f.

(** [try { p } catch (e) { h e }] *)
Fixpoint try_catch {R : Type} (p : Prog R) (h : string -> Prog R) : Prog R :=
  match p with
  | Ret r => Ret r
  | Throw e => h e
  | SetUser u k => SetUser u (try_catch k h)
  | SetProfile q k => SetProfile q (try_catch k h)
  | SetIsLoading b k => SetIsLoading b (try_catch k h)
  | Notify n k => Notify n (try_catch k h)
  | Await c k => Await c (fun o => try_catch (k o) h)
  end.

(** [try { p } finally { f }]: [f] runs however [p] ends, a [return] inside
    [p] included, and [p]'s completion is kept. *)
Fixpoint try_finally {R : Type} (p : Prog R) (f : Prog unit) : Prog R :=
  match p with
  | Ret r => bind f (fun _ => Ret r)
  | Throw e => bind f (fun _ => Throw e)
  | SetUser u k => SetUser u (try_finally k f)
  | SetProfile q k => SetProfile q (try_finally k f)
  | SetIsLoading b k => SetIsLoading b (try_finally k f)
  | Notify n k => Notify n (try_finally k f)
  | Await c k => Await c (fun o => try_finally (k o) f)
  end.

(** [await c]: a rejection is thrown at the [await]. *)
Definition await (c : Call) : Prog (Response c) :=
  Await c (fun o =>
    match o with
    | Resolved a => Ret a
    | Rejected e => Throw e
    end).

Definition setUser (u : option User) : Prog unit := SetUser u (Ret ()).
Definition setProfile (p : option UserProfile) : Prog unit := SetProfile p (Ret ()).
Definition setIsLoading (b : bool) : Prog unit := SetIsLoading b (Ret ()).
Definition notify (n : Notice) : Prog unit := Notify n (Ret ()).

(** Whether a block ended in a [return] or ran off its end. *)
Inductive Flow := Returned | Fallthrough.

(** ** The session manager *)

Definition not_active_msg : string :=
  "Your account is not active or has been blocked".

(** [fetchUserProfile(userId)] *)
Definition fetchUserProfile (userId : string) : Prog (option UserProfile) :=
  try_catch
    (r ← await (ProfilesSelectSingle userId);
     match error r with
     | Some _ =>
         notify (ConsoleError "Error fetching user profile:");;
         mret None
     | None => mret (data r)
     end)
    (fun _ =>
       notify (ConsoleError "Error in fetchUserProfile:");;
       mret None).

(** [refreshProfile()], created in a render that saw [user]. *)
Definition refreshProfile (user : option User) : Prog unit :=
  match user with
  | Some u =>
      userProfile ← fetchUserProfile (user_id u);
      setProfile userProfile
  | None => mret ()
  end.

(** [signOut()] *)
Definition signOut : Prog unit :=
  try_catch
    (await AuthSignOut;;
     setUser None;;
     setProfile None;;
     notify (ToastSuccess "Signed out successfully"))
    (fun _ =>
       notify (ConsoleError "Error signing out:");;
       notify (ToastError "Error signing out")).

(** [userProfile.blocked || userProfile.is_active === false] *)
Definition blocked_or_inactive (p : UserProfile) : bool :=
  blocked p || bool_decide (is_active p = false).

(** [getInitialSession()] *)
Definition getInitialSession : Prog unit :=
  try_finally
    (try_catch
       (r ← await AuthGetSession;
        match session_error r with
        | Some _ =>
            notify (ConsoleError "Error getting session:");;
            setIsLoading false
            (* return *)
        | None =>
            match session r with
            | Some sess =>
                setUser (Some (session_user sess));;
                userProfile ← fetchUserProfile (user_id (session_user sess));
                match userProfile with
                | Some p =>
                    if blocked_or_inactive p then
                      await AuthSignOut;;
                      notify (ToastError not_active_msg);;
                      setIsLoading false
                      (* return *)
                    else setProfile (Some p)
                | None => mret ()
                end
            | None => mret ()
            end
        end)
       (fun _ => notify (ConsoleError "Error in getInitialSession:")))
    (setIsLoading false).

(** The subscriber passed to [supabase.auth.onAuthStateChange]. *)
Definition onAuthStateChange (event : string) (sess : option Session) : Prog unit :=
  notify (ConsoleLog ("Auth state changed: " ++ event));;
  flow ←
    match sess with
    | Some sess =>
        setUser (Some (session_user sess));;
        userProfile ← fetchUserProfile (user_id (session_user sess));
        match userProfile with
        | Some p =>
            if blocked_or_inactive p then
              await AuthSignOut;;
              notify (ToastError not_active_msg);;
              mret Returned
            else
              setProfile (Some p);;
              mret Fallthrough
        | None => mret Fallthrough
        end
    | None =>
        setUser None;;
        setProfile None;;
        mret Fallthrough
    end;
  match flow with
  | Returned => mret ()
  | Fallthrough => setIsLoading false
  end.

(** ** Running a program to completion *)

(** How the collaborators answer: one settlement per kind of call. *)
Record Env := {
  getSession_outcome : Outcome SessionResult;
  select_outcome : string -> Outcome PostgrestSingle;
  signOut_outcome : Outcome SignOutResult
}.

Definition answer (env : Env) (c : Call) : Outcome (Response c) :=
  match c with
  | AuthGetSession => getSession_outcome env
  | ProfilesSelectSingle userId => select_outcome env userId
  | AuthSignOut => signOut_outcome env
  end.

(** What a program does, in order. *)
Inductive Action :=
| ActSetUser (u : option User)
| ActSetProfile (p : option UserProfile)
| ActSetIsLoading (b : bool)
| ActNotify (n : Notice)
| ActAwait (c : Call).

(** The actions of [p] when every [await] is answered by [env], and how the
    promise of [p] settles. *)
Fixpoint trace {R : Type} (env : Env) (p : Prog R) : list Action * Outcome R :=
  match p with
  | Ret r => ([], Resolved r)
  | Throw e => ([], Rejected e)
  | SetUser u k => let '(t, o) := trace env k in (ActSetUser u :: t, o)
  | SetProfile q k => let '(t, o) := trace env k in (ActSetProfile q :: t, o)
  | SetIsLoading b k => let '(t, o) := trace env k in (ActSetIsLoading b :: t, o)
  | Notify n k => let '(t, o) := trace env k in (ActNotify n :: t, o)
  | Await c k => let '(t, o) := trace env (k (answer env c)) in (ActAwait c :: t, o)
  end.

Definition apply_action (s : AuthState) (a : Action) : AuthState :=
  match a with
  | ActSetUser u =>
      {| st_user := u; st_profile := st_profile s; isLoading := isLoading s |}
  | ActSetProfile p =>
      {| st_user := st_user s; st_profile := p; isLoading := isLoading s |}
  | ActSetIsLoading b =>
      {| st_user := st_user s; st_profile := st_profile s; isLoading := b |}
  | ActNotify _ => s
  | ActAwait _ => s
  end.

Definition apply_actions (s : AuthState) (t : list Action) : AuthState :=
  foldl apply_action s t.

(** Every state the program passes through, the first one included. *)
Fixpoint states_along (s : AuthState) (t : list Action) : list AuthState :=
  match t with
  | [] => [s]
  | a :: t => s :: states_along (apply_action s a) t
  end.

(** The state in which [p] leaves [s]. *)
Definition run {R : Type} (env : Env) (p : Prog R) (s : AuthState) : AuthState :=
  apply_actions s (trace env p).1.

(** How the promise of [p] settles. *)
Definition completion {R : Type} (env : Env) (p : Prog R) : Outcome R :=
  (trace env p).2.

(** The notices of a trace. *)
Definition notices (t : list Action) : list Notice :=
  omap (fun a => match a with ActNotify n => Some n | _ => None end) t.

Definition is_clear_loading (a : Action) : bool :=
  match a with
  | ActSetIsLoading false => true
  | _ => false
  end.

(** How often a trace calls [setIsLoading(false)]. *)
Definition loading_cleared (t : list Action) : nat :=
  length (filter (fun a => is_clear_loading a) t).

(** ** Interleaved execution *)

(** A program suspended at an [await]. *)
Inductive Task :=
| Parked (c : Call) (k : Outcome (Response c) -> Prog unit).

(** The synchronous segment of [p]: its actions up to the first [await],
    and the suspended rest, if any. *)
Fixpoint segment (p : Prog unit) : list Action * option Task :=
  match p with
  | Ret _ => ([], None)
  | Throw _ => ([], None)
  | SetUser u k => let '(t, r) := segment k in (ActSetUser u :: t, r)
  | SetProfile q k => let '(t, r) := segment k in (ActSetProfile q :: t, r)
  | SetIsLoading b k => let '(t, r) := segment k in (ActSetIsLoading b :: t, r)
  | Notify n k => let '(t, r) := segment k in (ActNotify n :: t, r)
  | Await c k => ([ActAwait c], Some (Parked c k))
  end.

(** The provider between two segments: the state a render would read, the
    suspended programs and what has been done so far. *)
Record Config := {
  auth : AuthState;
  parked : list Task;
  journal : list Action
}.

Definition initial_config : Config :=
  {| auth := initial_state; parked := []; journal := [] |}.

(** Start [p] and run it to its first [await]. *)
Definition start (p : Prog unit) (c : Config) : Config :=
  let '(t, r) := segment p in
  {| auth := apply_actions (auth c) t;
     parked := parked c ++ option_list r;
     journal := journal c ++ t |}.

(** Settle the [await] of a suspended program and run it to its next one. *)
Definition resume (tk : Task) (env : Env) (c : Config) : Config :=
  match tk with
  | Parked call k => start (k (answer env call)) c
  end.

(** What can happen next. *)
Inductive Label :=
| Mount
| AuthEvent (event : string) (sess : option Session)
| CallSignOut
| CallRefreshProfile
| Settle (i : nat) (env : Env).

Definition step (c : Config) (l : Label) : Config :=
  match l with
  | Mount => start getInitialSession c
  | AuthEvent event sess => start (onAuthStateChange event sess) c
  | CallSignOut => start signOut c
  | CallRefreshProfile => start (refreshProfile (st_user (auth c))) c
  | Settle i env =>
      match parked c !! i with
      | Some tk =>
          resume tk env
            {| auth := auth c; parked := delete i (parked c);
               journal := journal c |}
      | None => c
      end
  end.

Definition exec (c : Config) (ls : list Label) : Config := foldl step c ls.

(** The states a consumer can read. *)
Definition reachable (s : AuthState) : Prop :=
  exists ls, auth (exec initial_config ls) = s.

(** ** A model of the remote stores *)

(** [.eq('id', userId).single()] over the rows of [profiles]: exactly one
    matching row is returned as [data], anything else is an [error]. *)
Definition select_single (rows : list UserProfile) (userId : string) : PostgrestSingle :=
  match filter (fun r => id r = userId) rows with
  | [r] => {| data := Some r; error := None |}
  | _ => {| data := None; error := Some "PGRST116" |}
  end.

(** Collaborators that are up: the identity store holds [sess], the profile
    store the table [rows]. *)
Definition online (sess : option Session) (rows : list UserProfile) : Env :=
  {| getSession_outcome := Resolved {| session := sess; session_error := None |};
     select_outcome := fun userId => Resolved (select_single rows userId);
     signOut_outcome := Resolved {| signout_error := None |} |}.

(** Collaborators whose every call rejects. *)
Definition offline : Env :=
  {| getSession_outcome := Rejected "Failed to fetch";
     select_outcome := fun _ => Rejected "Failed to fetch";
     signOut_outcome := Rejected "Failed to fetch" |}.

(** The profile query answers with rows of the queried id only. *)
Definition well_keyed (env : Env) : Prop :=
  forall userId r p,
    select_outcome env userId = Resolved r -> data r = Some p -> id p = userId.

(** The fetch of [userId] finds a profile. *)
Definition fetch_finds (env : Env) (userId : string) (p : UserProfile) : Prop :=
  exists r, select_outcome env userId = Resolved r /\ error r = None /\ data r = Some p.

(** The fetch of [userId] fails or finds no record. *)
Definition fetch_fails (env : Env) (userId : string) : Prop :=
  match select_outcome env userId with
  | Resolved r => is_Some (error r) \/ data r = None
  | Rejected _ => True
  end.

(** ** Sample data *)

Module Sample.

Definition profile_of (userId : string) (r : Role) (active blk : bool)
    (perms : option (gmap string JsValue)) : UserProfile :=
  {| id := userId; full_name := userId; attrs := no_attrs; role := r;
     is_active := active; blocked := blk; permissions := perms |}.

Definition user_of (userId : string) : User :=
  {| user_id := userId; email := None |}.

Definition session_of (userId : string) : Session :=
  {| session_user := user_of userId; access_token := "token-" ++ userId |}.

Definition signed_in (p : UserProfile) : AuthState :=
  {| st_user := Some (user_of (id p)); st_profile := Some p;
     isLoading := false |}.

Definition alice : UserProfile := profile_of "alice" editor true false None.
Definition bob : UserProfile := profile_of "bob" moderator true false None.
Definition carol : UserProfile := profile_of "carol" admin true true None.
Definition dave : UserProfile := profile_of "dave" user false false None.
Definition erin : UserProfile := profile_of "erin" moderator true false (Some ∅).
Definition frank : UserProfile :=
  profile_of "frank" moderator true false
    (Some {[ "manage_comments" := JsBool false ]}).

Definition table : list UserProfile := [alice; bob; carol; dave; erin; frank].

End Sample.

(** ** Notions used in the statements *)

(** The static role table as the specification lists it. *)
Definition static_capabilities (r : Role) : list string :=
  match r with
  | moderator => ["moderate_content"; "manage_comments"; "view_analytics"]
  | editor => ["create_content"; "edit_content"; "manage_posts"]
  | user => ["view_content"; "create_comments"]
  | admin => []
  end.

(** The resolution order in the specification's words: admin, then an
    override that contains the name, then the static table. *)
Definition spec_hasCapability (s : AuthState) (name : string) : bool :=
  match st_profile s with
  | None => false
  | Some p =>
      if decide (role p = admin) then true
      else
        match permissions p ≫= (fun perms => perms !! name) with
        | Some (JsBool b) => b
        | _ => includes (static_capabilities (role p)) name
        end
  end.

(** What [fetchUserProfile(userId)] returns under [env]. *)
Definition fetched (env : Env) (userId : string) : option UserProfile :=
  match select_outcome env userId with
  | Resolved r =>
      match error r with
      | Some _ => None
      | None => data r
      end
  | Rejected _ => None
  end.

(** A stored profile is the profile of the stored identity. *)
Definition consistent (s : AuthState) : Prop :=
  forall u p, st_user s = Some u -> st_profile s = Some p -> id p = user_id u.

(** One event handled to its end before anything else happens: the
    subscriber awaits at most twice. *)
Definition deliver (event : string) (sess : option Session) (env : Env)
    : list Label :=
  [AuthEvent event sess; Settle 0 env; Settle 0 env].

(** Events handled one at a time, each with the answers it gets. *)
Definition one_at_a_time (evs : list (string * option Session * Env))
    : list Label :=
  flat_map (fun '(event, sess, env) => deliver event sess env) evs.

(** ** Scenarios *)

Definition store : Env := online None Sample.table.

(** Carol, an admin, was signed in before her profile was blocked. *)
Definition carol_before : AuthState :=
  Sample.signed_in (Sample.profile_of "carol" admin true false None).

(** Alice signs in and her profile arrives; then Bob signs in on the same
    client, and his profile fetch is still pending. *)
Definition second_login : list Label :=
  [AuthEvent "SIGNED_IN" (Some (Sample.session_of "alice"));
   Settle 0 store;
   AuthEvent "SIGNED_IN" (Some (Sample.session_of "bob"))].

(** Alice's login, a logout and Bob's login arrive before any fetch has
    settled; Bob's fetch settles first, Alice's last. *)
Definition rapid_relogin : list Label :=
  [AuthEvent "SIGNED_IN" (Some (Sample.session_of "alice"));
   AuthEvent "SIGNED_OUT" None;
   AuthEvent "SIGNED_IN" (Some (Sample.session_of "bob"));
   Settle 1 store;
   Settle 0 store].

(** A login whose fetch is still pending when the logout arrives: once the
    fetch settles, the state has Bob's profile and no identity. *)
Definition late_fetch : list Label :=
  [AuthEvent "SIGNED_IN" (Some (Sample.session_of "bob"));
   AuthEvent "SIGNED_OUT" None;
   Settle 0 store].

(** ** What a program can ever do *)

(** Every action [p] can perform, however its [await]s settle, satisfies
    [P]. *)
Fixpoint always {R : Type} (P : Action -> Prop) (p : Prog R) : Prop :=
  match p with
  | Ret _ => True
  | Throw _ => True
  | SetUser u k => P (ActSetUser u) /\ always P k
  | SetProfile q k => P (ActSetProfile q) /\ always P k
  | SetIsLoading b k => P (ActSetIsLoading b) /\ always P k
  | Notify n k => P (ActNotify n) /\ always P k
  | Await c k => P (ActAwait c) /\ forall o, always P (k o)
  end.

(** The same for a suspended program. *)
Definition task_always (P : Action -> Prop) (tk : Task) : Prop :=
  match tk with
  | Parked c k => forall o, always P (k o)
  end.

(** [setProfile] is not called with a blocked or inactive profile. *)
Definition stores_no_blocked (a : Action) : Prop :=
  match a with
  | ActSetProfile (Some p) => blocked_or_inactive p = false
  | _ => True
  end.

(** [setIsLoading] is not called with [true]. *)
Definition never_sets_loading (a : Action) : Prop :=
  match a with
  | ActSetIsLoading true => False
  | _ => True
  end.

(** The profile in the state, if any, is active and not blocked. *)
Definition profile_in_good_standing (s : AuthState) : Prop :=
  forall p, st_profile s = Some p -> blocked_or_inactive p = false.

(** The identity store has no session to offer: the call rejects, reports an
    error, or resolves with no session. *)
Definition no_session (env : Env) : Prop :=
  match getSession_outcome env with
  | Resolved r => is_Some (session_error r) \/ session r = None
  | Rejected _ => True
  end.

(** [refreshProfile()] is not among the labels. *)
Definition without_refresh (ls : list Label) : Prop :=
  Forall (fun l => l <> CallRefreshProfile) ls.

(** The program a label starts can only perform actions that satisfy [P]. *)
Definition label_always (P : Action -> Prop) (l : Label) : Prop :=
  match l with
  | Mount => always P getInitialSession
  | AuthEvent event sess => always P (onAuthStateChange event sess)
  | CallSignOut => always P signOut
  | CallRefreshProfile => forall u, always P (refreshProfile u)
  | Settle _ _ => True
  end.

(** The state satisfies [I] and the suspended programs can only perform
    actions that satisfy [P]. *)
Definition config_good (P : Action -> Prop) (I : AuthState -> Prop)
    (c : Config) : Prop :=
  I (auth c) /\ Forall (task_always P) (parked c).

(** ** More of the guards and the route table *)

(** [withRoleProtection(Component, requiredRole)] *)
Definition withRoleProtection (component : string) (requiredRole : option Role)
    (s : AuthState) (location : string) : View :=
  ProtectedRoute s location component requiredRole true None.

(** The wrapper a route of [App] puts around its page. *)
Inductive RouteGuard :=
| Unguarded
| Protected
| AdminOnly
| ModeratorUp
| EditorUp.

Record RouteEntry := {
  route_path : string;
  route_guard : RouteGuard;
  route_page : string
}.

(** The children of the [/admin] route in [App], the index route first. *)
Definition admin_routes : list RouteEntry :=
  [ {| route_path := ""; route_guard := Protected; route_page := "Dashboard" |};
    {| route_path := "users"; route_guard := AdminOnly; route_page := "UsersPage" |};
    {| route_path := "posts"; route_guard := EditorUp; route_page := "PostsPage" |};
    {| route_path := "categories"; route_guard := ModeratorUp;
       route_page := "CategoriesPage" |};
    {| route_path := "tags"; route_guard := ModeratorUp; route_page := "TagsPage" |};
    {| route_path := "comments"; route_guard := ModeratorUp;
       route_page := "CommentsPage" |};
    {| route_path := "likes"; route_guard := Protected; route_page := "LikesPage" |};
    {| route_path := "comment-likes"; route_guard := ModeratorUp;
       route_page := "CommentLikesPage" |};
    {| route_path := "bookmarks"; route_guard := Protected;
       route_page := "BookmarksPage" |};
    {| route_path := "followers"; route_guard := Protected;
       route_page := "FollowersPage" |};
    {| route_path := "notifications"; route_guard := Protected;
       route_page := "NotificationsPage" |};
    {| route_path := "roles"; route_guard := AdminOnly; route_page := "RolesPage" |};
    {| route_path := "user-roles"; route_guard := AdminOnly;
       route_page := "UserRolesPage" |};
    {| route_path := "role-audit"; route_guard := AdminOnly;
       route_page := "RoleAuditPage" |};
    {| route_path := "post-images"; route_guard := EditorUp;
       route_page := "PostImagesPage" |};
    {| route_path := "analytics"; route_guard := ModeratorUp;
       route_page := "AnalyticsPage" |} ].

(** The other routes of [App]; [/admin] renders [AdminLayout]. *)
Definition top_routes : list RouteEntry :=
  [ {| route_path := "/login"; route_guard := Unguarded; route_page := "LoginPage" |};
    {| route_path := "/"; route_guard := Unguarded; route_page := "Index" |};
    {| route_path := "/profile"; route_guard := Protected;
       route_page := "ProfilePage" |};
    {| route_path := "/settings"; route_guard := Protected;
       route_page := "SettingsPage" |};
    {| route_path := "/admin"; route_guard := Protected;
       route_page := "AdminLayout" |};
    {| route_path := "*"; route_guard := Unguarded; route_page := "NotFound" |} ].

(** The [element] of a route, rendered at [location] in the state [s]. *)
Definition element (r : RouteEntry) (s : AuthState) (location : string) : View :=
  match route_guard r with
  | Unguarded => Children (route_page r)
  | Protected => ProtectedRoute s location (route_page r) None true None
  | AdminOnly => AdminRoute s location (route_page r)
  | ModeratorUp => ModeratorRoute s location (route_page r)
  | EditorUp => EditorRoute s location (route_page r)
  end.

(** Whether a view is the page itself. *)
Definition shows (v : View) (page : string) : bool :=
  match v with
  | Children node => bool_decide (node = page)
  | _ => false
  end.

(** The paths under [/admin] whose element shows its page. *)
Definition open_paths (s : AuthState) (location : string) : list string :=
  route_path <$> filter (fun r => shows (element r s location) (route_page r)) admin_routes.

(** ** Page handlers *)

(** The pages keep their own [useState] cells and call the same remote
    collaborators, and some more.  Their handlers are programs over the
    effects and calls of a page; strings are sequences of code units, so
    [String.length] is [.length]. *)

(** [interface LoginFormData] *)
Record LoginFormData := {
  form_email : string;
  form_password : string
}.

(** [{ data: authData, error: authError }] of
    [supabase.auth.signInWithPassword]: [authData.user] and
    [authError.message]. *)
Record AuthResponse := {
  auth_user : option User;
  auth_error : option string
}.

(** [interface UserProfile] of the login page, which has no
    [permissions].  The row is cast, not checked ([profile as UserProfile]),
    so [role] is whatever string the column holds; the [switch] of
    [handleLogin] has a [default] case for it. *)
Record LoginProfile := {
  login_id : string;
  login_full_name : string;
  login_attrs : ProfileAttrs;
  login_role : string;
  login_is_active : bool;
  login_blocked : bool
}.

(** [{ data: profile, error: profileError }] of the login page's
    [select('*').eq('id', authData.user.id).single()]. *)
Record LoginProfileResult := {
  login_data : option LoginProfile;
  login_error : option string
}.

(** [{ data: currentProfile }] of [select('login_count').eq('id', userId)
    .single()]: the row, if any, with its [login_count]. *)
Record LoginCountResult := {
  currentProfile : option (option Z)
}.

(** [{ error }] of [supabaseAdmin.auth.updateUser]. *)
Record UpdateUserResult := {
  update_error : option string
}.

(** The password form of the settings page. *)
Record PasswordForm := {
  current_password : string;
  new_password : string;
  confirm_password : string
}.

Inductive UiCall :=
| Shared (c : Call)
| SignInWithPassword (email password : string)
| SelectLoginProfile (userId : string)
| SelectLoginCount (userId : string)
| UpdateLoginInfo (userId : string) (last_login_at : string) (login_count : Z)
| UpdateUserPassword (password : string).

Definition UiResponse (c : UiCall) : Type :=
  match c with
  | Shared c => Response c
  | SignInWithPassword _ _ => AuthResponse
  | SelectLoginProfile _ => LoginProfileResult
  | SelectLoginCount _ => LoginCountResult
  | UpdateLoginInfo _ _ _ => unit
  | UpdateUserPassword _ => UpdateUserResult
  end.

(** What a page handler does besides awaiting: its own state setters,
    navigation, notices, and the provider's actions when it calls a function
    of the context. *)
Inductive UiEffect :=
| SetError (e : option string)
| SetSuccess (msg : option string)
| SetPageLoading (b : bool)
| SetIsSaving (b : bool)
| SetShowPasswordForm (b : bool)
| SetPasswordForm (f : PasswordForm)
| Navigate (to : string)
| Notice_ (n : Notice)
| Provider_ (a : Action).

Inductive Ui (R : Type) : Type :=
| UiRet (r : R)
| UiThrow (reason : string)
| UiDo (e : UiEffect) (k : Ui R)
| UiAwait (c : UiCall) (k : Outcome (UiResponse c) -> Ui R).
Arguments UiRet {R} r.
Arguments UiThrow {R} reason.
Arguments UiDo {R} e k.
Arguments UiAwait {R} c k.

Fixpoint ui_bind {R S : Type} (p : Ui R) (f : R -> Ui S) : Ui S :=
  match p with
  | UiRet r => f r
  | UiThrow e => UiThrow e
  | UiDo e k => UiDo e (ui_bind k f)
  | UiAwait c k => UiAwait c (fun o => ui_bind (k o) f)
  end.

#[global] Instance Ui_ret : MRet Ui := @UiRet.
#[global] Instance Ui_bind : MBind Ui := fun R S f p => ui_bind p f.

(** [try { p } catch (e) { h e }] *)
Fixpoint ui_try_catch {R : Type} (p : Ui R) (h : string -> Ui R) : Ui R :=
  match p with
  | UiRet r => UiRet r
  | UiThrow e => h e
  | UiDo e k => UiDo e (ui_try_catch k h)
  | UiAwait c k => UiAwait c (fun o => ui_try_catch (k o) h)
  end.

(** [try { p } finally { f }] *)
Fixpoint ui_try_finally {R : Type} (p : Ui R) (f : Ui unit) : Ui R :=
  match p with
  | UiRet r => ui_bind f (fun _ => UiRet r)
  | UiThrow e => ui_bind f (fun _ => UiThrow e)
  | UiDo e k => UiDo e (ui_try_finally k f)
  | UiAwait c k => UiAwait c (fun o => ui_try_finally (k o) f)
  end.

Definition ui_await (c : UiCall) : Ui (UiResponse c) :=
  UiAwait c (fun o =>
    match o with
    | Resolved a => UiRet a
    | Rejected e => UiThrow e
    end).

Definition perform (e : UiEffect) : Ui unit := UiDo e (UiRet ()).

(** A function of the context called from a page. *)
Fixpoint lift {R : Type} (p : Prog R) : Ui R :=
  match p with
  | Ret r => UiRet r
  | Throw e => UiThrow e
  | SetUser u k => UiDo (Provider_ (ActSetUser u)) (lift k)
  | SetProfile q k => UiDo (Provider_ (ActSetProfile q)) (lift k)
  | SetIsLoading b k => UiDo (Provider_ (ActSetIsLoading b)) (lift k)
  | Notify n k => UiDo (Notice_ n) (lift k)
  | Await c k => UiAwait (Shared c) (fun o => lift (k o))
  end.

(** *** The login page *)

(** A count is a JavaScript number with an integer value.  [to_double z]
    is the number nearest to the integer [z], ties to even: [z] itself below
    [2^53] in magnitude, a multiple of a power of two above. *)
Definition to_double (z : Z) : Z :=
  let m := Z.abs z in
  if (m <? 2 ^ 53)%Z then z
  else
    let e := (Z.log2 m - 52)%Z in
    let q := (m / 2 ^ e)%Z in
    let r := (m mod 2 ^ e)%Z in
    let half := (2 ^ (e - 1))%Z in
    let q' :=
      if (r <? half)%Z then q
      else if (half <? r)%Z then (q + 1)%Z
      else if Z.even q then q else (q + 1)%Z in
    (Z.sgn z * (q' * 2 ^ e))%Z.

(** [a + b] on numbers with integer values. *)
Definition js_add (a b : Z) : Z := to_double (a + b).

(** [updateUserLoginInfo(userId)]; [now] is [new Date().toISOString()]. *)
Definition updateUserLoginInfo (userId now : string) : Ui unit :=
  ui_try_catch
    (r ← ui_await (SelectLoginCount userId);
     match currentProfile r with
     | Some login_count =>
         let currentCount := default 0%Z login_count in
         ui_await (UpdateLoginInfo userId now (js_add currentCount 1));;
         mret ()
     | None => mret ()
     end)
    (fun _ => perform (Notice_ (ConsoleError "Error updating login info:"))).

(** The [switch (userRole)] of [handleLogin]: where a role is sent, [None]
    for the [default] case. *)
Definition landing (userRole : string) : option string :=
  if bool_decide (userRole = "admin") || bool_decide (userRole = "moderator")
     || bool_decide (userRole = "editor") then Some "/admin"
  else if bool_decide (userRole = "user") then Some "/"
  else None.

(** [handleLogin(e)] with the form as it is at submit. *)
Definition handleLogin (formData : LoginFormData) (now : string) : Ui unit :=
  perform (SetError None);;
  perform (SetPageLoading true);;
  ui_try_finally
    (ui_try_catch
       (if bool_decide (form_email formData = "")
           || bool_decide (form_password formData = "") then
          perform (SetError (Some "Please enter both email and password"))
          (* return *)
        else
          r ← ui_await (SignInWithPassword (form_email formData)
                          (form_password formData));
          match auth_error r with
          | Some message => perform (SetError (Some message))
                            (* return *)
          | None =>
              match auth_user r with
              | None => perform (SetError (Some "Authentication failed"))
                        (* return *)
              | Some u =>
                  q ← ui_await (SelectLoginProfile (user_id u));
                  match login_error q with
                  | Some _ =>
                      perform (SetError (Some "User profile not found"));;
                      ui_await (Shared AuthSignOut);;
                      mret ()
                      (* return *)
                  | None =>
                      match login_data q with
                      | None => UiThrow "TypeError"
                      | Some userProfile =>
                          if login_blocked userProfile then
                            perform (SetError (Some
                              "Your account has been blocked. Please contact administrator."));;
                            ui_await (Shared AuthSignOut);;
                            mret ()
                            (* return *)
                          else if bool_decide (login_is_active userProfile = false) then
                            perform (SetError (Some
                              "Your account is not active. Please contact administrator."));;
                            ui_await (Shared AuthSignOut);;
                            mret ()
                            (* return *)
                          else
                            updateUserLoginInfo (login_id userProfile) now;;
                            perform (Notice_ (ToastSuccess
                              ("Welcome back, " ++ login_full_name userProfile
                               ++ "!")));;
                            match landing (login_role userProfile) with
                            | Some to => perform (Navigate to)
                            | None =>
                                perform (SetError (Some
                                  "Invalid user role. Please contact administrator."));;
                                ui_await (Shared AuthSignOut);;
                                mret ()
                            end
                      end
                  end
              end
          end)
       (fun _ =>
          perform (Notice_ (ConsoleError "Login error:"));;
          perform (SetError (Some
            "An unexpected error occurred. Please try again."))))
    (perform (SetPageLoading false)).

(** *** The settings page *)

Definition empty_password_form : PasswordForm :=
  {| current_password := ""; new_password := ""; confirm_password := "" |}.

(** [handlePasswordUpdate()] with [user] and the password form of the
    render. *)
Definition handlePasswordUpdate (user : option User) (passwordForm : PasswordForm)
    : Ui unit :=
  match user with
  | None => mret ()
  | Some _ =>
      if negb (bool_decide (new_password passwordForm = confirm_password passwordForm))
      then perform (SetError (Some "New passwords do not match"))
      else if (String.length (new_password passwordForm) <? 8)%nat
      then perform (SetError (Some "Password must be at least 8 characters long"))
      else
        perform (SetIsSaving true);;
        perform (SetError None);;
        ui_try_finally
          (ui_try_catch
             (r ← ui_await (UpdateUserPassword (new_password passwordForm));
              match update_error r with
              | Some e => UiThrow e
              | None =>
                  perform (SetPasswordForm empty_password_form);;
                  perform (SetShowPasswordForm false);;
                  perform (SetSuccess (Some "Password updated successfully"));;
                  perform (Notice_ (ToastSuccess "Password updated successfully"))
              end)
             (fun _ =>
                perform (Notice_ (ConsoleError "Password update error:"));;
                perform (SetError (Some "Failed to update password"))))
          (perform (SetIsSaving false))
  end.

(** *** The profile page *)

(** [handleLogout()] *)
Definition handleLogout : Ui unit :=
  ui_try_catch
    (lift signOut;;
     perform (Navigate "/login");;
     perform (Notice_ (ToastSuccess "Logged out successfully")))
    (fun _ =>
       perform (Notice_ (ConsoleError "Logout error:"));;
       perform (Notice_ (ToastError "Error logging out"))).

(** *** Running a page handler *)

(** How the collaborators answer a page. *)
Definition UiEnv : Type := forall c : UiCall, Outcome (UiResponse c).

Inductive UiStep :=
| Did (e : UiEffect)
| Asked (c : UiCall).

(** What a handler does, in order, and how its promise settles. *)
Fixpoint ui_trace {R : Type} (env : UiEnv) (p : Ui R) : list UiStep * Outcome R :=
  match p with
  | UiRet r => ([], Resolved r)
  | UiThrow e => ([], Rejected e)
  | UiDo e k => let '(t, o) := ui_trace env k in (Did e :: t, o)
  | UiAwait c k => let '(t, o) := ui_trace env (k (env c)) in (Asked c :: t, o)
  end.

Definition steps {R : Type} (env : UiEnv) (p : Ui R) : list UiStep :=
  (ui_trace env p).1.

Definition settles {R : Type} (env : UiEnv) (p : Ui R) : Outcome R :=
  (ui_trace env p).2.

(** The provider's state after the provider actions of a page trace. *)
Definition provider_actions (t : list UiStep) : list Action :=
  omap (fun st => match st with Did (Provider_ a) => Some a | _ => None end) t.

(** The row of the provider's query as the login page reads it. *)
Definition row_of (p : UserProfile) : LoginProfile :=
  {| login_id := id p; login_full_name := full_name p; login_attrs := attrs p;
     login_role := role_name (role p); login_is_active := is_active p;
     login_blocked := blocked p |}.

(** The answer of the provider's profile query as the login page's query
    gets it. *)
Definition login_view (o : Outcome PostgrestSingle) : Outcome LoginProfileResult :=
  match o with
  | Resolved r =>
      Resolved {| login_data := row_of <$> data r; login_error := error r |}
  | Rejected e => Rejected e
  end.

(** An environment for the pages: the collaborators of [env], a sign-in
    answer, a login count and an answer to the password update. *)
Definition ui_env (env : Env) (signIn : Outcome AuthResponse)
    (count : Outcome LoginCountResult) (update : Outcome unit)
    (pw : Outcome UpdateUserResult) : UiEnv :=
  fun c =>
    match c with
    | Shared c => answer env c
    | SignInWithPassword _ _ => signIn
    | SelectLoginProfile userId => login_view (select_outcome env userId)
    | SelectLoginCount _ => count
    | UpdateLoginInfo _ _ _ => update
    | UpdateUserPassword _ => pw
    end.

(** The profile store is up, but the identity store rejects every call. *)
Definition store_auth_down : Env :=
  {| getSession_outcome := Rejected "Failed to fetch";
     select_outcome := fun userId => Resolved (select_single Sample.table userId);
     signOut_outcome := Rejected "Failed to fetch" |}.

(** Alice's credentials are accepted; the login count cannot be read. *)
Definition alice_logs_in : UiEnv :=
  ui_env store
    (Resolved {| auth_user := Some (Sample.user_of "alice"); auth_error := None |})
    (Rejected "Failed to fetch") (Resolved ())
    (Resolved {| update_error := None |}).

Definition alice_form : LoginFormData :=
  {| form_email := "alice@example.org"; form_password := "correct horse" |}.

(** The credentials are accepted, but the row found has a role that the
    login page does not know. *)
Definition owner_logs_in : UiEnv :=
  fun c =>
    match c as c0 return Outcome (UiResponse c0) with
    | SelectLoginProfile userId =>
        Resolved
          {| login_data :=
               Some {| login_id := userId; login_full_name := "Olga";
                       login_attrs := no_attrs; login_role := "owner";
                       login_is_active := true; login_blocked := false |};
             login_error := None |}
    | c0 => alice_logs_in c0
    end.

(** ** Overlapping auth events *)

(** [setUser] is not called. *)
Definition never_sets_user (a : Action) : Prop :=
  match a with
  | ActSetUser _ => False
  | _ => True
  end.

(** Only auth events and the settling of [await]s. *)
Definition events_and_settlements (ls : list Label) : Prop :=
  Forall (fun l =>
            match l with
            | AuthEvent _ _ => True
            | Settle _ _ => True
            | _ => False
            end) ls.

(** The identity carried by the most recent auth event. *)
Definition identity_step (cur : option User) (l : Label) : option User :=
  match l with
  | AuthEvent _ sess => session_user <$> sess
  | _ => cur
  end.

Definition identity_after (ls : list Label) : option User :=
  foldl identity_step None ls.

(** The suspended rest of the subscriber after an event with a session:
    it waits for the profile fetch. *)
Definition pending_fetch (event : string) (sess : Session) : option Task :=
  (segment (onAuthStateChange event (Some sess))).2.

(** * Properties *)

(** Split a membership in an explicit list into its cases. *)
Ltac elem_cases H :=
  repeat (apply elem_of_cons in H as [H | H]; [try discriminate H |]);
  try (apply elem_of_nil in H; destruct H).

(** ** Capability resolution *)

Module Capability.

(** The code's table, indexed by the role's string, is the listed one. *)
Lemma rolePermissions_static (r : Role) :
  r <> admin -> rolePermissions (role_name r) = Some (static_capabilities r).
Proof. destruct r; intros Hr; try reflexivity. congruence. Qed.

Lemma strict_eq_true_get (perms : gmap string JsValue) (name : string) :
  strict_eq_true (js_get perms name) = true <-> perms !! name = Some (JsBool true).
Proof.
  unfold js_get. destruct (perms !! name) as [v|] eqn:E; simpl.
  - destruct v as [| |[|]| | |]; simpl; split; intros H; congruence.
  - split; intros H; discriminate.
Qed.

(** C2, as stated, fails: a moderator whose [permissions] mapping exists
    but is empty is refused [moderate_content], which the static table
    grants to moderators and the specification's order would grant. *)
Lemma hasPermission_missing_override_counterexample :
  permissions Sample.erin = Some ∅ /\
  role Sample.erin = moderator /\
  "moderate_content" ∈ static_capabilities moderator /\
  spec_hasCapability (Sample.signed_in Sample.erin) "moderate_content" = true /\
  hasPermission (Sample.signed_in Sample.erin) "moderate_content" = false.
Proof.
  repeat split; try reflexivity.
  apply list_elem_of_here.
Qed.

(** C2 (amended): [hasPermission] returns false without a profile; true
    for an admin whatever the table and the overrides say; for any other
    role with a [permissions] mapping, true exactly when the mapping holds
    the name with the value [true] (so it returns a boolean override
    exactly, and false when the name is missing, without consulting the
    static table); and with no [permissions] mapping, true exactly when the
    name is in the static table of the role. *)
Theorem hasPermission_resolution (s : AuthState) (name : string) :
  (st_profile s = None -> hasPermission s name = false) /\
  (forall p, st_profile s = Some p ->
     (role p = admin -> hasPermission s name = true) /\
     (role p <> admin ->
      forall perms, permissions p = Some perms ->
        (hasPermission s name = true <-> perms !! name = Some (JsBool true)) /\
        (forall b, perms !! name = Some (JsBool b) -> hasPermission s name = b) /\
        (perms !! name = None -> hasPermission s name = false)) /\
     (role p <> admin -> permissions p = None ->
        (hasPermission s name = true <-> name ∈ static_capabilities (role p)))).
Proof.
  unfold hasPermission. split; [intros ->; reflexivity |].
  intros p ->. split; [| split].
  - intros Hadm. rewrite decide_True by exact Hadm. reflexivity.
  - intros Hna perms Hperms. rewrite decide_False by exact Hna.
    rewrite Hperms. split; [apply strict_eq_true_get | split].
    + intros b Hb. unfold js_get. rewrite Hb. destruct b; reflexivity.
    + intros Hn. unfold js_get. rewrite Hn. reflexivity.
  - intros Hna Hperms. rewrite decide_False by exact Hna.
    rewrite Hperms, rolePermissions_static by exact Hna.
    unfold includes. apply bool_decide_eq_true.
Qed.

Lemma hasPermission_resolution_witness :
  hasPermission initial_state "view_content" = false /\
  hasPermission (Sample.signed_in Sample.carol) "anything" = true /\
  hasPermission (Sample.signed_in Sample.frank) "manage_comments" = false /\
  hasPermission (Sample.signed_in Sample.erin) "moderate_content" = false /\
  (hasPermission (Sample.signed_in Sample.bob) "view_analytics" = true <->
   "view_analytics" ∈ static_capabilities moderator).
Proof.
  split; [| split; [| split; [| split]]].
  - destruct (hasPermission_resolution initial_state "view_content") as [H _].
    apply H. reflexivity.
  - destruct (hasPermission_resolution (Sample.signed_in Sample.carol) "anything")
      as [_ H].
    destruct (H Sample.carol eq_refl) as [Hadm _]. apply Hadm. reflexivity.
  - destruct (hasPermission_resolution (Sample.signed_in Sample.frank)
                "manage_comments") as [_ H].
    destruct (H Sample.frank eq_refl) as (_ & Hov & _).
    destruct (Hov ltac:(discriminate) {[ "manage_comments" := JsBool false ]} eq_refl)
      as (_ & Hb & _).
    apply Hb. reflexivity.
  - destruct (hasPermission_resolution (Sample.signed_in Sample.erin)
                "moderate_content") as [_ H].
    destruct (H Sample.erin eq_refl) as (_ & Hov & _).
    destruct (Hov ltac:(discriminate) ∅ eq_refl) as (_ & _ & Hn).
    apply Hn. reflexivity.
  - destruct (hasPermission_resolution (Sample.signed_in Sample.bob)
                "view_analytics") as [_ H].
    destruct (H Sample.bob eq_refl) as (_ & _ & Htab).
    apply Htab; [discriminate | reflexivity].
Defined.

End Capability.

(** ** Route guards *)

Module Guard.

Lemma isAuthenticated_profile (s : AuthState) :
  isAuthenticated s = true -> exists p, st_profile s = Some p.
Proof.
  unfold isAuthenticated. intros H.
  apply andb_true_iff in H as [_ H]. apply bool_decide_eq_true in H.
  destruct H as [p Hp]. exists p. exact Hp.
Qed.

Lemma role_is_true (s : AuthState) (p : UserProfile) (r : Role) :
  st_profile s = Some p -> role_is s r = bool_decide (role p = r).
Proof. unfold role_is. intros ->. reflexivity. Qed.

(** Testable property of the specification: an editor at a route that
    requires [admin] sees the denial naming both roles. *)
Example ProtectedRoute_editor_at_admin :
  ProtectedRoute (Sample.signed_in Sample.alice) "/admin/users" "UsersPage"
    (Some admin) true None = AccessDenied "editor" "admin".
Proof. reflexivity. Qed.

(** C7: with [requireAuth] at its default [true], [ProtectedRoute] shows
    the loading view while [isLoading]; otherwise navigates to [/login],
    keeping the requested location, when not authenticated; otherwise, when
    a role is required and it is not the profile's, lets an admin through
    and denies anyone else with the caller's fallback if there is one and
    with the generic view naming the current and the required role if not;
    otherwise renders the children. *)
Theorem ProtectedRoute_decision (s : AuthState) (location children : string)
    (requiredRole : option Role) (fallback : option string) :
  let v := ProtectedRoute s location children requiredRole true fallback in
  (isLoading s = true -> v = LoadingView) /\
  (isLoading s = false -> isAuthenticated s = false ->
     v = NavigateTo "/login" location) /\
  (isLoading s = false -> isAuthenticated s = true ->
     exists p, st_profile s = Some p /\
       match requiredRole with
       | None => v = Children children
       | Some r =>
           (role p = r -> v = Children children) /\
           (role p <> r -> role p = admin -> v = Children children) /\
           (role p <> r -> role p <> admin ->
              match fallback with
              | Some f => v = Fallback f
              | None => v = AccessDenied (role_name (role p)) (role_name r)
              end)
       end).
Proof.
  cbv zeta. unfold ProtectedRoute. split; [| split].
  - intros ->. reflexivity.
  - intros -> ->. reflexivity.
  - intros -> Hauth. destruct (isAuthenticated_profile s Hauth) as [p Hp].
    exists p. split; [exact Hp |]. rewrite Hauth. simpl.
    destruct requiredRole as [r|]; [| reflexivity].
    rewrite !(role_is_true s p) by exact Hp.
    unfold role_or_unknown. rewrite Hp.
    split; [| split].
    + intros Hr. rewrite bool_decide_eq_true_2 by exact Hr. reflexivity.
    + intros Hr Hadm. rewrite bool_decide_eq_false_2 by exact Hr.
      rewrite bool_decide_eq_true_2 by exact Hadm. reflexivity.
    + intros Hr Hadm. rewrite !bool_decide_eq_false_2 by assumption.
      simpl. destruct fallback; reflexivity.
Qed.

Lemma ProtectedRoute_decision_witness :
  ProtectedRoute initial_state "/admin" "Dashboard" None true None = LoadingView /\
  ProtectedRoute
    {| st_user := None; st_profile := None; isLoading := false |}
    "/admin/roles" "RolesPage" (Some admin) true None
    = NavigateTo "/login" "/admin/roles" /\
  exists p, st_profile (Sample.signed_in Sample.alice) = Some p /\
    ProtectedRoute (Sample.signed_in Sample.alice) "/admin/users" "UsersPage"
      (Some admin) true None = AccessDenied (role_name (role p)) "admin".
Proof.
  split; [| split].
  - apply (ProtectedRoute_decision initial_state "/admin" "Dashboard" None None).
    reflexivity.
  - apply (ProtectedRoute_decision
             {| st_user := None; st_profile := None; isLoading := false |}
             "/admin/roles" "RolesPage" (Some admin) None); reflexivity.
  - destruct (ProtectedRoute_decision (Sample.signed_in Sample.alice)
                "/admin/users" "UsersPage" (Some admin) None) as (_ & _ & H).
    destruct (H eq_refl eq_refl) as (p & Hp & _ & _ & Hden).
    exists p. split; [exact Hp |].
    injection Hp as <-. apply Hden; discriminate.
Defined.

(** A guard wrapped around [ProtectedRoute] with a fallback never shows
    the children to a role that is neither the required one nor admin. *)
Lemma ProtectedRoute_denied (s : AuthState) (location children f : string)
    (r : Role) :
  role_is s r = false -> role_is s admin = false ->
  ProtectedRoute s location children (Some r) true (Some f) <> Children children.
Proof.
  unfold ProtectedRoute. intros -> ->. simpl.
  destruct (isLoading s); [discriminate |].
  destruct (isAuthenticated s); discriminate.
Qed.

Lemma ProtectedRoute_fallback (s : AuthState) (location children f : string)
    (r : Role) :
  isLoading s = false -> isAuthenticated s = true ->
  role_is s r = false -> role_is s admin = false ->
  ProtectedRoute s location children (Some r) true (Some f) = Fallback f.
Proof. unfold ProtectedRoute. intros -> -> -> ->. reflexivity. Qed.

Lemma moderator_access (s : AuthState) :
  role_is s admin || role_is s moderator = true <->
  exists p, st_profile s = Some p /\ role p ∈ [admin; moderator].
Proof.
  unfold role_is. destruct (st_profile s) as [p|]; simpl.
  - split.
    + intros H. exists p. split; [reflexivity |].
      apply orb_true_iff in H as [H | H]; apply bool_decide_eq_true in H;
        rewrite H; repeat constructor.
    + intros (q & [= <-] & Hr). apply orb_true_iff.
      rewrite !bool_decide_eq_true. elem_cases Hr; auto.
  - split; [discriminate |]. intros (q & Hq & _). discriminate.
Qed.

Lemma editor_access (s : AuthState) :
  includes ["admin"; "moderator"; "editor"] (role_or_empty s) = true <->
  exists p, st_profile s = Some p /\ role p ∈ [admin; moderator; editor].
Proof.
  unfold role_or_empty. destruct (st_profile s) as [p|].
  - split.
    + intros H. exists p. split; [reflexivity |].
      destruct (role p); try discriminate H; repeat constructor.
    + intros (q & [= <-] & Hr).
      destruct (role p); try reflexivity.
      elem_cases Hr.
  - split; [discriminate |]. intros (q & Hq & _). discriminate.
Qed.

Lemma editor_access_roles (s : AuthState) :
  includes ["admin"; "moderator"; "editor"] (role_or_empty s) = false ->
  role_is s editor = false /\ role_is s admin = false.
Proof.
  unfold role_or_empty, role_is. destruct (st_profile s) as [p|]; [| done].
  destruct (role p); try discriminate; done.
Qed.

(** C8: [ModeratorRoute] renders the children exactly for profiles whose
    role is [admin] or [moderator], and [EditorRoute] exactly for [admin],
    [moderator] or [editor]; once loading has ended, every other
    authenticated profile gets the guard's own fallback message.  An admin
    therefore passes the moderator guard. *)
Theorem allow_list_guards (s : AuthState) (location children : string) :
  (ModeratorRoute s location children = Children children <->
     exists p, st_profile s = Some p /\ role p ∈ [admin; moderator]) /\
  (EditorRoute s location children = Children children <->
     exists p, st_profile s = Some p /\ role p ∈ [admin; moderator; editor]) /\
  (forall p, st_profile s = Some p -> role p = admin ->
     ModeratorRoute s location children = Children children) /\
  (forall p, isLoading s = false -> isAuthenticated s = true ->
     st_profile s = Some p ->
     (role p ∉ [admin; moderator] ->
        ModeratorRoute s location children = Fallback moderator_fallback) /\
     (role p ∉ [admin; moderator; editor] ->
        EditorRoute s location children = Fallback editor_fallback)).
Proof.
  assert (Hmod : ModeratorRoute s location children = Children children <->
            exists p, st_profile s = Some p /\ role p ∈ [admin; moderator]).
  { rewrite <- moderator_access. unfold ModeratorRoute.
    destruct (role_is s admin) eqn:Ha, (role_is s moderator) eqn:Hm; simpl;
      try (split; reflexivity).
    split; [| discriminate]. intros H.
    exfalso. revert H. apply ProtectedRoute_denied; assumption. }
  assert (Hed : EditorRoute s location children = Children children <->
            exists p, st_profile s = Some p /\ role p ∈ [admin; moderator; editor]).
  { rewrite <- editor_access. unfold EditorRoute.
    destruct (includes _ (role_or_empty s)) eqn:Hi; simpl;
      [split; reflexivity |].
    split; [| discriminate]. intros H.
    destruct (editor_access_roles s Hi) as [He Ha].
    exfalso. revert H. apply ProtectedRoute_denied; assumption. }
  split; [exact Hmod |]. split; [exact Hed |]. split.
  - intros p Hp Hr. apply Hmod. exists p. split; [exact Hp |].
    rewrite Hr. repeat constructor.
  - intros p Hl Hauth Hp. split.
    + intros Hr. unfold ModeratorRoute.
      assert (Ha : role_is s admin = false).
      { rewrite (role_is_true s p) by exact Hp.
        apply bool_decide_eq_false. intros E. apply Hr. rewrite E.
        repeat constructor. }
      assert (Hm : role_is s moderator = false).
      { rewrite (role_is_true s p) by exact Hp.
        apply bool_decide_eq_false. intros E. apply Hr. rewrite E.
        repeat constructor. }
      rewrite Ha, Hm. simpl. apply ProtectedRoute_fallback; assumption.
    + intros Hr. unfold EditorRoute.
      assert (Hi : includes ["admin"; "moderator"; "editor"] (role_or_empty s)
                   = false).
      { destruct (includes _ (role_or_empty s)) eqn:Hi; [| reflexivity].
        apply editor_access in Hi as (q & Hq & Hin).
        rewrite Hp in Hq. injection Hq as <-. contradiction. }
      rewrite Hi. simpl.
      destruct (editor_access_roles s Hi) as [He Ha].
      apply ProtectedRoute_fallback; assumption.
Qed.

Lemma allow_list_guards_witness :
  ModeratorRoute (Sample.signed_in Sample.carol) "/admin/tags" "TagsPage"
    = Children "TagsPage" /\
  ModeratorRoute (Sample.signed_in Sample.alice) "/admin/tags" "TagsPage"
    = Fallback moderator_fallback /\
  EditorRoute (Sample.signed_in Sample.dave) "/admin/posts" "PostsPage"
    = Fallback editor_fallback.
Proof.
  split; [| split].
  - destruct (allow_list_guards (Sample.signed_in Sample.carol) "/admin/tags"
                "TagsPage") as (_ & _ & H & _).
    apply (H Sample.carol); reflexivity.
  - destruct (allow_list_guards (Sample.signed_in Sample.alice) "/admin/tags"
                "TagsPage") as (_ & _ & _ & H).
    destruct (H Sample.alice eq_refl eq_refl eq_refl) as [Hm _].
    apply Hm. intros Hin. apply elem_of_cons in Hin as [Hin | Hin];
      [discriminate |]. apply elem_of_cons in Hin as [Hin | Hin];
      [discriminate |]. inversion Hin.
  - destruct (allow_list_guards (Sample.signed_in Sample.dave) "/admin/posts"
                "PostsPage") as (_ & _ & _ & H).
    destruct (H Sample.dave eq_refl eq_refl eq_refl) as [_ He].
    apply He. intros Hin. repeat (apply elem_of_cons in Hin as [Hin | Hin];
      [discriminate |]). inversion Hin.
Defined.

End Guard.

(** ** The session manager, one operation at a time *)

Module SessionManager.

(** Case analysis on how the profile query of [uid] settles. *)
Ltac settle_select env uid :=
  let E := fresh "Esel" in
  destruct (select_outcome env uid) as [[[?p|] [?e|]]|?e] eqn:E.

(** [fetchUserProfile] never rejects: every failure is a missing profile. *)
Lemma fetchUserProfile_completion (env : Env) (userId : string) :
  completion env (fetchUserProfile userId) = Resolved (fetched env userId).
Proof.
  unfold completion, fetched, fetchUserProfile. cbn.
  settle_select env userId; reflexivity.
Qed.

Lemma fetched_finds (env : Env) (userId : string) (p : UserProfile) :
  fetch_finds env userId p <-> fetched env userId = Some p.
Proof.
  unfold fetch_finds, fetched. split.
  - intros (r & -> & -> & ->). reflexivity.
  - destruct (select_outcome env userId) as [r|e]; [| discriminate].
    destruct (error r) eqn:Er; [discriminate |].
    intros Hd. exists r. auto.
Qed.

Lemma fetched_fails (env : Env) (userId : string) :
  fetch_fails env userId <-> fetched env userId = None.
Proof.
  unfold fetch_fails, fetched.
  destruct (select_outcome env userId) as [r|e]; [| tauto].
  destruct (error r) eqn:Er.
  - split; [reflexivity |]. intros _. left. eexists. reflexivity.
  - split.
    + intros [[x Hx] | Hd]; [discriminate | exact Hd].
    + intros Hd. right. exact Hd.
Qed.

(** [refreshProfile] stores whatever the fetch returned. *)
Lemma run_refreshProfile (env : Env) (s : AuthState) (u : User) :
  st_user s = Some u ->
  run env (refreshProfile (st_user s)) s =
    {| st_user := Some u; st_profile := fetched env (user_id u);
       isLoading := isLoading s |} /\
  completion env (refreshProfile (st_user s)) = Resolved ().
Proof.
  intros Hu. rewrite Hu.
  unfold run, completion, fetched, refreshProfile, fetchUserProfile. cbn.
  settle_select env (user_id u); cbn; rewrite Hu; split; reflexivity.
Qed.

(** C10: with an identity in the state, a refresh whose fetch fails or
    finds no record stores [null] as the profile and keeps the identity, so
    the state is no longer authenticated. *)
Theorem refreshProfile_failure_clears (env : Env) (s : AuthState) (u : User) :
  st_user s = Some u ->
  fetch_fails env (user_id u) ->
  let s' := run env (refreshProfile (st_user s)) s in
  st_user s' = Some u /\ st_profile s' = None /\ isAuthenticated s' = false.
Proof.
  intros Hu Hfail. cbv zeta.
  destruct (run_refreshProfile env s u Hu) as [-> _].
  apply fetched_fails in Hfail. rewrite Hfail. repeat split.
Qed.

Lemma refreshProfile_failure_clears_witness :
  isAuthenticated (Sample.signed_in Sample.alice) = true /\
  let s' := run offline (refreshProfile (Some (Sample.user_of "alice")))
              (Sample.signed_in Sample.alice) in
  st_user s' = Some (Sample.user_of "alice") /\ st_profile s' = None /\
  isAuthenticated s' = false.
Proof.
  split; [reflexivity |].
  apply (refreshProfile_failure_clears offline (Sample.signed_in Sample.alice)
           (Sample.user_of "alice")).
  - reflexivity.
  - exact I.
Defined.

(** C1 fails on [refreshProfile]: it stores the fetched profile without
    looking at [blocked] or [is_active], so a blocked or inactive profile,
    whatever its role, ends up in an authenticated state and no sign-out is
    requested. *)
Theorem refreshProfile_stores_blocked (env : Env) (s : AuthState) (u : User)
    (p : UserProfile) :
  st_user s = Some u ->
  fetch_finds env (user_id u) p ->
  blocked_or_inactive p = true ->
  let s' := run env (refreshProfile (st_user s)) s in
  st_user s' = Some u /\ st_profile s' = Some p /\ isAuthenticated s' = true.
Proof.
  intros Hu Hfind _. cbv zeta.
  destruct (run_refreshProfile env s u Hu) as [-> _].
  apply fetched_finds in Hfind. rewrite Hfind. repeat split.
Qed.

Lemma refreshProfile_stores_blocked_witness :
  blocked Sample.carol = true /\
  let s' := run (online None Sample.table)
              (refreshProfile (st_user carol_before)) carol_before in
  st_user s' = Some (Sample.user_of "carol") /\
  st_profile s' = Some Sample.carol /\ isAuthenticated s' = true.
Proof.
  split; [reflexivity |].
  apply (refreshProfile_stores_blocked (online None Sample.table) carol_before
           (Sample.user_of "carol") Sample.carol).
  - reflexivity.
  - eexists. repeat split.
  - reflexivity.
Defined.

(** *** [signOut] *)

Lemma run_signOut (env : Env) (s : AuthState) :
  run env signOut s =
    match signOut_outcome env with
    | Resolved _ =>
        {| st_user := None; st_profile := None; isLoading := isLoading s |}
    | Rejected _ => s
    end.
Proof.
  unfold run, signOut. cbn.
  destruct (signOut_outcome env); cbn; [reflexivity |].
  destruct s; reflexivity.
Qed.

(** [signOut] catches everything: its promise always resolves. *)
Lemma signOut_completion (env : Env) : completion env signOut = Resolved ().
Proof.
  unfold completion, signOut. cbn. destruct (signOut_outcome env); reflexivity.
Qed.

(** C4, as stated, fails: when the remote sign-out call rejects, the
    [catch] branch only reports the error and the local state stays
    authenticated. *)
Lemma signOut_rejected_counterexample :
  signOut_outcome offline = Rejected "Failed to fetch" /\
  run offline signOut (Sample.signed_in Sample.alice)
    = Sample.signed_in Sample.alice /\
  isAuthenticated (run offline signOut (Sample.signed_in Sample.alice)) = true.
Proof. repeat split. Qed.

(** C4 (amended): when the remote sign-out call resolves, also with an
    error in its result, [signOut] sets identity and profile to [null] and
    confirms with a success notice; when the call rejects, the [catch]
    branch leaves identity and profile as they were and shows an error
    notice. *)
Theorem signOut_local_state (env : Env) (s : AuthState) :
  (forall r, signOut_outcome env = Resolved r ->
     st_user (run env signOut s) = None /\
     st_profile (run env signOut s) = None /\
     isAuthenticated (run env signOut s) = false /\
     notices (trace env signOut).1 = [ToastSuccess "Signed out successfully"]) /\
  (forall e, signOut_outcome env = Rejected e ->
     run env signOut s = s /\
     notices (trace env signOut).1 =
       [ConsoleError "Error signing out:"; ToastError "Error signing out"]).
Proof.
  rewrite run_signOut. unfold signOut. cbn.
  split; intros x ->; repeat split.
Qed.

Lemma signOut_local_state_witness :
  (st_user (run (online None []) signOut (Sample.signed_in Sample.alice)) = None /\
   st_profile (run (online None []) signOut (Sample.signed_in Sample.alice)) = None) /\
  run offline signOut (Sample.signed_in Sample.alice) = Sample.signed_in Sample.alice.
Proof.
  split.
  - destruct (signOut_local_state (online None []) (Sample.signed_in Sample.alice))
      as [H _].
    destruct (H {| signout_error := None |} eq_refl) as (Hu & Hp & _).
    split; [exact Hu | exact Hp].
  - destruct (signOut_local_state offline (Sample.signed_in Sample.alice))
      as [_ H].
    destruct (H "Failed to fetch" eq_refl) as [Hs _]. exact Hs.
Defined.

(** C9: [signOut] on a state whose identity and profile are already
    [null] leaves the state as it is, and its promise resolves whatever the
    remote call does (no error escapes); a second [signOut] never changes
    what the first one left. *)
Theorem signOut_idempotent (env : Env) (s : AuthState) :
  (st_user s = None -> st_profile s = None -> run env signOut s = s) /\
  completion env signOut = Resolved () /\
  run env signOut (run env signOut s) = run env signOut s.
Proof.
  split; [| split].
  - intros Hu Hp. rewrite run_signOut.
    destruct (signOut_outcome env); [| reflexivity].
    destruct s as [u p l]. simpl in *. subst. reflexivity.
  - apply signOut_completion.
  - rewrite !run_signOut. destruct (signOut_outcome env); reflexivity.
Qed.

Lemma signOut_idempotent_witness :
  run (online None []) signOut
    {| st_user := None; st_profile := None; isLoading := false |}
  = {| st_user := None; st_profile := None; isLoading := false |}.
Proof.
  apply (signOut_idempotent (online None [])
           {| st_user := None; st_profile := None; isLoading := false |});
    reflexivity.
Defined.

(** *** The auth-event subscriber and the initial probe *)

Ltac settle_signOut env :=
  let E := fresh "Eout" in
  destruct (signOut_outcome env) as [?r|?e] eqn:E.

Ltac settle_getSession env :=
  let E := fresh "Eget" in
  destruct (getSession_outcome env) as [[[?se|] [?e|]]|?e] eqn:E.

(** An event without a session clears identity and profile. *)
Lemma run_onAuthStateChange_none (env : Env) (event : string) (s : AuthState) :
  run env (onAuthStateChange event None) s =
    {| st_user := None; st_profile := None; isLoading := false |}.
Proof. reflexivity. Qed.

(** An event whose session has an active, unblocked profile stores both. *)
Lemma run_onAuthStateChange_found (env : Env) (event : string) (sess : Session)
    (p : UserProfile) (s : AuthState) :
  fetched env (user_id (session_user sess)) = Some p ->
  blocked_or_inactive p = false ->
  run env (onAuthStateChange event (Some sess)) s =
    {| st_user := Some (session_user sess); st_profile := Some p;
       isLoading := false |}.
Proof.
  unfold fetched, run, onAuthStateChange, fetchUserProfile. cbn.
  settle_select env (user_id (session_user sess)); cbn; try discriminate;
    intros [= ->] ->; reflexivity.
Qed.

(** An event whose profile fetch fails keeps the profile that was there. *)
Lemma run_onAuthStateChange_missing (env : Env) (event : string) (sess : Session)
    (s : AuthState) :
  fetched env (user_id (session_user sess)) = None ->
  run env (onAuthStateChange event (Some sess)) s =
    {| st_user := Some (session_user sess); st_profile := st_profile s;
       isLoading := false |}.
Proof.
  unfold fetched, run, onAuthStateChange, fetchUserProfile. cbn.
  settle_select env (user_id (session_user sess)); cbn; try discriminate;
    intros _; reflexivity.
Qed.

(** An event whose profile is blocked or inactive requests the remote
    sign-out and returns: the identity of the event stays in the state, next
    to whatever profile was there, and [isLoading] is not touched. *)
Lemma run_onAuthStateChange_blocked (env : Env) (event : string) (sess : Session)
    (p : UserProfile) (s : AuthState) :
  fetched env (user_id (session_user sess)) = Some p ->
  blocked_or_inactive p = true ->
  run env (onAuthStateChange event (Some sess)) s =
    {| st_user := Some (session_user sess); st_profile := st_profile s;
       isLoading := isLoading s |} /\
  loading_cleared (trace env (onAuthStateChange event (Some sess))).1 = 0.
Proof.
  unfold fetched, run, onAuthStateChange, fetchUserProfile. cbn.
  settle_select env (user_id (session_user sess)); cbn; try discriminate;
    intros [= ->] ->; cbn; settle_signOut env; split; reflexivity.
Qed.

(** A token refresh for Carol after she was blocked: the subscriber asks
    for the remote sign-out, and the local state stays as it was, still
    authenticated with the profile loaded before the block. *)
Example onAuthStateChange_blocked_stays_authenticated :
  run store (onAuthStateChange "TOKEN_REFRESHED" (Some (Sample.session_of "carol")))
    carol_before = carol_before /\
  isAuthenticated carol_before = true.
Proof. split; reflexivity. Qed.

(** The initial probe on a blocked profile: [isLoading] is cleared twice,
    before the [return] and in [finally]. *)
Example getInitialSession_blocked_clears_twice :
  loading_cleared
    (trace (online (Some (Sample.session_of "carol")) Sample.table)
       getInitialSession).1 = 2.
Proof. reflexivity. Qed.

(** The subscriber never passes a blocked or inactive profile to
    [setProfile]. *)
Lemma onAuthStateChange_never_stores_blocked (env : Env) (event : string)
    (sess : option Session) (p : UserProfile) :
  ActSetProfile (Some p) ∈ (trace env (onAuthStateChange event sess)).1 ->
  blocked_or_inactive p = false.
Proof.
  destruct sess as [sess|]; unfold onAuthStateChange, fetchUserProfile; cbn.
  - settle_select env (user_id (session_user sess)); cbn;
      try (intros H; elem_cases H; fail).
    destruct (blocked_or_inactive p0) eqn:B; cbn.
    + settle_signOut env; cbn; intros H; elem_cases H.
    + intros H; elem_cases H. injection H as ->. exact B.
  - intros H; elem_cases H.
Qed.

(** Neither does the initial probe. *)
Lemma getInitialSession_never_stores_blocked (env : Env) (p : UserProfile) :
  ActSetProfile (Some p) ∈ (trace env getInitialSession).1 ->
  blocked_or_inactive p = false.
Proof.
  unfold getInitialSession, fetchUserProfile; cbn.
  settle_getSession env; cbn; try (intros H; elem_cases H; fail).
  settle_select env (user_id (session_user se)); cbn;
    try (intros H; elem_cases H; fail).
  destruct (blocked_or_inactive p0) eqn:B; cbn.
  - settle_signOut env; cbn; intros H; elem_cases H.
  - intros H; elem_cases H. injection H as ->. exact B.
Qed.

(** The initial probe ends with [isLoading] false on every path: the
    blocked branch clears it before its [return], and [finally] once more. *)
Lemma getInitialSession_clears_loading (env : Env) (s : AuthState) :
  isLoading (run env getInitialSession s) = false /\
  1 <= loading_cleared (trace env getInitialSession).1.
Proof.
  unfold run, getInitialSession, fetchUserProfile; cbn.
  settle_getSession env; cbn; try (split; [reflexivity | cbv; lia]).
  settle_select env (user_id (session_user se)); cbn;
    try (split; [reflexivity | cbv; lia]).
  destruct (blocked_or_inactive p) eqn:B; cbn.
  - settle_signOut env; cbn; split; try reflexivity; cbv; lia.
  - split; [reflexivity | cbv; lia].
Qed.

(** On every path but the blocked one, the subscriber clears [isLoading]
    once, as its last action. *)
Lemma onAuthStateChange_clears_loading_once (env : Env) (event : string)
    (sess : option Session) :
  (forall se p, sess = Some se ->
     fetched env (user_id (session_user se)) = Some p ->
     blocked_or_inactive p = false) ->
  loading_cleared (trace env (onAuthStateChange event sess)).1 = 1 /\
  last (trace env (onAuthStateChange event sess)).1 = Some (ActSetIsLoading false).
Proof.
  destruct sess as [sess|]; [| intros _; split; reflexivity].
  intros Hok. specialize (Hok sess). revert Hok.
  unfold fetched, onAuthStateChange, fetchUserProfile; cbn.
  settle_select env (user_id (session_user sess)); cbn; intros Hok;
    try (split; reflexivity).
  rewrite (Hok p eq_refl eq_refl). split; reflexivity.
Qed.

(** C6 fails on the blocked branch of the subscriber: after the remote
    sign-out it returns before [setIsLoading(false)], so the event never
    clears [isLoading]. *)
Theorem onAuthStateChange_blocked_skips_loading (env : Env) (event : string)
    (sess : Session) (p : UserProfile) (s : AuthState) :
  fetch_finds env (user_id (session_user sess)) p ->
  blocked_or_inactive p = true ->
  loading_cleared (trace env (onAuthStateChange event (Some sess))).1 = 0 /\
  isLoading (run env (onAuthStateChange event (Some sess)) s) = isLoading s.
Proof.
  intros Hfind Hblk. apply fetched_finds in Hfind.
  destruct (run_onAuthStateChange_blocked env event sess p s Hfind Hblk)
    as [-> Hc].
  split; [exact Hc | reflexivity].
Qed.

Lemma onAuthStateChange_blocked_skips_loading_witness :
  loading_cleared
    (trace (online None Sample.table)
       (onAuthStateChange "SIGNED_IN" (Some (Sample.session_of "carol")))).1 = 0 /\
  isLoading
    (run (online None Sample.table)
       (onAuthStateChange "SIGNED_IN" (Some (Sample.session_of "carol")))
       initial_state) = true.
Proof.
  apply (onAuthStateChange_blocked_skips_loading (online None Sample.table)
           "SIGNED_IN" (Sample.session_of "carol") Sample.carol initial_state).
  - eexists. repeat split.
  - reflexivity.
Defined.

(** *** Identity and profile belong together *)

Lemma online_well_keyed (sess : option Session) (rows : list UserProfile) :
  well_keyed (online sess rows).
Proof.
  intros userId r p. simpl. unfold select_single.
  destruct (filter _ rows) as [|q [|q' l]] eqn:F; intros [= <-]; simpl;
    try discriminate.
  intros [= <-].
  assert (Hq : q ∈ filter (fun r => id r = userId) rows)
    by (rewrite F; apply list_elem_of_here).
  apply list_elem_of_filter in Hq as [Hq _]. exact Hq.
Qed.

Lemma offline_well_keyed : well_keyed offline.
Proof. intros userId r p. simpl. discriminate. Qed.

(** C5 (amended): when the state before an auth event is consistent and
    its profile, if any, already belongs to the identity of the event (as
    it does after a sign-out or an event without identity, which leave no
    profile), every state the subscriber passes through while it handles
    the event is consistent, whether the profile fetch succeeds, fails,
    finds no record or ends in the forced sign-out. *)
Theorem onAuthStateChange_keeps_consistent (env : Env) (event : string)
    (sess : option Session) (s : AuthState) :
  well_keyed env ->
  consistent s ->
  (forall se p, sess = Some se -> st_profile s = Some p ->
     id p = user_id (session_user se)) ->
  Forall consistent (states_along s (trace env (onAuthStateChange event sess)).1).
Proof.
  intros Hkey Hs Hsame.
  assert (Hnone : forall u l,
            consistent {| st_user := u; st_profile := None; isLoading := l |}).
  { intros u l v q _ Hq. discriminate Hq. }
  assert (Hnouser : forall q l,
            consistent {| st_user := None; st_profile := q; isLoading := l |}).
  { intros q l v r Hv. discriminate Hv. }
  destruct s as [u0 p0 l0].
  destruct sess as [sess|]; unfold onAuthStateChange, fetchUserProfile; cbn.
  - assert (Hold : forall l,
              consistent {| st_user := Some (session_user sess);
                            st_profile := p0; isLoading := l |}).
    { intros l v q [= <-] Hq. simpl in Hq. subst p0.
      apply (Hsame sess q eq_refl eq_refl). }
    assert (Hnew : forall q l,
              select_outcome env (user_id (session_user sess))
                = Resolved {| data := Some q; error := None |} ->
              consistent {| st_user := Some (session_user sess);
                            st_profile := Some q; isLoading := l |}).
    { intros q l Hq v r [= <-] [= <-].
      apply (Hkey _ _ q Hq). reflexivity. }
    settle_select env (user_id (session_user sess)); cbn;
      try (repeat constructor; auto; fail).
    destruct (blocked_or_inactive p) eqn:B; cbn.
    + settle_signOut env; cbn; repeat constructor; auto.
    + repeat constructor; auto.
  - repeat constructor; auto.
Qed.

Lemma onAuthStateChange_keeps_consistent_witness :
  Forall consistent
    (states_along initial_state
       (trace (online None Sample.table)
          (onAuthStateChange "SIGNED_IN" (Some (Sample.session_of "alice")))).1).
Proof.
  apply (onAuthStateChange_keeps_consistent (online None Sample.table)
           "SIGNED_IN" (Some (Sample.session_of "alice")) initial_state).
  - apply online_well_keyed.
  - intros u p Hu. discriminate Hu.
  - intros se p _ Hp. discriminate Hp.
Defined.

(** *** Interleaved events *)

(** C5, as stated, fails: while Bob's fetch is pending, a consumer reads
    an authenticated state that pairs Bob's identity with Alice's profile. *)
Lemma stale_profile_counterexample :
  let s := auth (exec initial_config second_login) in
  reachable s /\
  st_user s = Some (Sample.user_of "bob") /\
  st_profile s = Some Sample.alice /\
  isAuthenticated s = true /\
  ~ consistent s.
Proof.
  cbv zeta. split; [exists second_login; reflexivity |].
  repeat split.
  intros H. specialize (H (Sample.user_of "bob") Sample.alice eq_refl eq_refl).
  discriminate H.
Qed.

(** C3, as stated, fails: nothing discards the result of the superseded
    fetch; when it settles last, Alice's profile replaces Bob's next to
    Bob's identity. *)
Lemma stale_fetch_counterexample :
  let c := exec initial_config rapid_relogin in
  parked c = [] /\
  st_user (auth c) = Some (Sample.user_of "bob") /\
  st_profile (auth c) = Some Sample.alice /\
  st_profile (auth c) <> Some Sample.bob.
Proof. cbv zeta. repeat split. discriminate. Qed.

Lemma exec_app (c : Config) (ls ls' : list Label) :
  exec c (ls ++ ls') = exec (exec c ls) ls'.
Proof. unfold exec. apply foldl_app. Qed.

(** With nothing else pending, the interleaved semantics runs a delivered
    event exactly as [run] does, and leaves nothing pending. *)
Lemma deliver_run (c : Config) (event : string) (sess : option Session)
    (env : Env) :
  parked c = [] ->
  parked (exec c (deliver event sess env)) = [] /\
  auth (exec c (deliver event sess env))
    = run env (onAuthStateChange event sess) (auth c).
Proof.
  destruct c as [s pk j]. simpl. intros ->.
  destruct sess as [sess|]; [| split; reflexivity].
  unfold run, deliver, onAuthStateChange, fetchUserProfile. cbn.
  settle_select env (user_id (session_user sess)); cbn;
    try (split; reflexivity).
  destruct (blocked_or_inactive p) eqn:B; cbn; [| split; reflexivity].
  settle_signOut env; cbn; split; reflexivity.
Qed.

Lemma one_at_a_time_settled (c : Config)
    (evs : list (string * option Session * Env)) :
  parked c = [] -> parked (exec c (one_at_a_time evs)) = [].
Proof.
  revert c. induction evs as [|[[event sess] env] evs IH]; intros c Hc.
  - exact Hc.
  - change (one_at_a_time ((event, sess, env) :: evs))
      with (deliver event sess env ++ one_at_a_time evs)%list.
    rewrite exec_app. apply IH. apply deliver_run. exact Hc.
Qed.

Lemma one_at_a_time_snoc (evs : list (string * option Session * Env))
    (event : string) (sess : option Session) (env : Env) :
  one_at_a_time (evs ++ [(event, sess, env)])
    = (one_at_a_time evs ++ deliver event sess env)%list.
Proof.
  unfold one_at_a_time. rewrite flat_map_app. cbn [flat_map].
  rewrite app_nil_r. reflexivity.
Qed.

(** When events are handled one at a time, each to its end before the
    next is delivered, the final state reflects the last event alone: no
    identity and no profile after an event without identity, and the
    identity of the event with its own profile after an event whose fetch
    finds an active, unblocked profile. *)
Lemma one_at_a_time_last_event (evs : list (string * option Session * Env))
    (event : string) (sess : option Session) (env : Env) :
  let c := exec initial_config (one_at_a_time (evs ++ [(event, sess, env)])) in
  parked c = [] /\
  match sess with
  | None => st_user (auth c) = None /\ st_profile (auth c) = None
  | Some se =>
      forall p, fetch_finds env (user_id (session_user se)) p ->
                blocked_or_inactive p = false ->
                st_user (auth c) = Some (session_user se) /\
                st_profile (auth c) = Some p
  end.
Proof.
  cbv zeta. rewrite one_at_a_time_snoc, exec_app.
  pose proof (one_at_a_time_settled initial_config evs eq_refl) as Hsettled.
  destruct (deliver_run _ event sess env Hsettled) as [Hpk ->].
  split; [exact Hpk |].
  destruct sess as [se|].
  - intros p Hfind Hok. apply fetched_finds in Hfind.
    rewrite (run_onAuthStateChange_found env event se p _ Hfind Hok).
    split; reflexivity.
  - rewrite run_onAuthStateChange_none. split; reflexivity.
Qed.

End SessionManager.

(** ** More on the provider *)

Module Provider.

Ltac settle_select env uid :=
  let E := fresh "Esel" in
  destruct (select_outcome env uid) as [[[?p|] [?e|]]|?e] eqn:E.

Ltac settle_signOut env :=
  let E := fresh "Eout" in
  destruct (signOut_outcome env) as [?r|?e] eqn:E.

Ltac settle_getSession env :=
  let E := fresh "Eget" in
  destruct (getSession_outcome env) as [[[?se|] [?e|]]|?e] eqn:E.

(** [fetchUserProfile] fails closed: it never throws and never touches the
    state; it returns a profile exactly when the query resolved without error
    and with a row, and [null] in every other case. *)
Theorem fetchUserProfile_fails_closed (env : Env) (userId : string)
    (s : AuthState) :
  run env (fetchUserProfile userId) s = s /\
  exists r, completion env (fetchUserProfile userId) = Resolved r /\
    (forall p, r = Some p <-> fetch_finds env userId p) /\
    (r = None <-> fetch_fails env userId).
Proof.
  split.
  - unfold run, fetchUserProfile. cbn.
    settle_select env userId; destruct s; reflexivity.
  - exists (fetched env userId).
    split; [apply SessionManager.fetchUserProfile_completion |]. split.
    + intros p. symmetry. apply SessionManager.fetched_finds.
    + symmetry. apply SessionManager.fetched_fails.
Qed.

(** The initial probe settles whatever the collaborators do: its promise
    resolves (a rejected call is caught), [setIsLoading(false)] is its last
    action, and the state is left with [isLoading] false. *)
Theorem getInitialSession_settles (env : Env) (s : AuthState) :
  completion env getInitialSession = Resolved () /\
  last (trace env getInitialSession).1 = Some (ActSetIsLoading false) /\
  isLoading (run env getInitialSession s) = false.
Proof.
  unfold run, completion, getInitialSession, fetchUserProfile. cbn.
  settle_getSession env; cbn; try (repeat split; fail).
  settle_select env (user_id (session_user se)); cbn;
    try (repeat split; fail).
  destruct (blocked_or_inactive p); cbn; [| repeat split].
  settle_signOut env; cbn; repeat split.
Qed.

(** With no session to restore (the call rejects, reports an error or
    resolves with none) the initial probe leaves identity and profile alone,
    asks the profile store nothing, and only clears [isLoading]. *)
Theorem getInitialSession_no_session (env : Env) (s : AuthState) :
  no_session env ->
  run env getInitialSession s =
    {| st_user := st_user s; st_profile := st_profile s; isLoading := false |} /\
  (forall userId, ActAwait (ProfilesSelectSingle userId)
                    ∉ (trace env getInitialSession).1) /\
  ActAwait AuthSignOut ∉ (trace env getInitialSession).1.
Proof.
  unfold no_session, run, getInitialSession, fetchUserProfile. cbn.
  settle_getSession env; cbn; intros Hno;
    try (split; [reflexivity | split; [intros userId H | intros H]; elem_cases H]; fail).
  destruct Hno as [[x Hx] | Hx]; discriminate Hx.
Qed.

Lemma getInitialSession_no_session_witness :
  run offline getInitialSession (Sample.signed_in Sample.alice)
    = Sample.signed_in Sample.alice /\
  run (online None Sample.table) getInitialSession initial_state
    = {| st_user := None; st_profile := None; isLoading := false |}.
Proof.
  split.
  - destruct (getInitialSession_no_session offline (Sample.signed_in Sample.alice))
      as [H _]; [exact I | exact H].
  - destruct (getInitialSession_no_session (online None Sample.table) initial_state)
      as [H _]; [right; reflexivity | exact H].
Defined.

(** From a state without profile, as at mount, the initial probe ends
    authenticated only if the identity store returned a session without
    error and the profile store a row for its user that is active and not
    blocked; identity and profile are then exactly those. *)
Theorem getInitialSession_authenticates (env : Env) (s : AuthState) :
  st_profile s = None ->
  isAuthenticated (run env getInitialSession s) = true ->
  exists sess p,
    getSession_outcome env
      = Resolved {| session := Some sess; session_error := None |} /\
    fetch_finds env (user_id (session_user sess)) p /\
    blocked p = false /\ is_active p = true /\
    st_user (run env getInitialSession s) = Some (session_user sess) /\
    st_profile (run env getInitialSession s) = Some p.
Proof.
  intros Hs. unfold isAuthenticated, fetch_finds, run, getInitialSession,
    fetchUserProfile. cbn.
  settle_getSession env; cbn; rewrite ?Hs; cbn;
    try (rewrite andb_false_r; discriminate).
  settle_select env (user_id (session_user se)); cbn; rewrite ?Hs; cbn;
    try (rewrite andb_false_r; discriminate);
    try discriminate.
  destruct (blocked_or_inactive p) eqn:B; cbn.
  - settle_signOut env; cbn; rewrite ?Hs; discriminate.
  - intros _. exists se, p. unfold blocked_or_inactive in B.
    apply orb_false_iff in B as [Hb Ha]. apply bool_decide_eq_false in Ha.
    repeat split; try assumption.
    + eexists. split; [exact Esel | split; reflexivity].
    + destruct (is_active p); congruence.
Qed.

Lemma getInitialSession_authenticates_witness :
  exists sess p,
    fetch_finds (online (Some (Sample.session_of "alice")) Sample.table)
      (user_id (session_user sess)) p /\
    blocked p = false /\ is_active p = true /\
    st_profile
      (run (online (Some (Sample.session_of "alice")) Sample.table)
         getInitialSession initial_state) = Some p.
Proof.
  destruct (getInitialSession_authenticates
              (online (Some (Sample.session_of "alice")) Sample.table)
              initial_state eq_refl eq_refl)
    as (sess & p & _ & Hf & Hb & Ha & _ & Hp).
  exists sess, p. repeat split; assumption.
Defined.

(** The subscriber has no [try]: its promise rejects exactly when the
    fetched profile is blocked or inactive and the forced sign-out call
    rejects, and then with that reason. *)
Theorem onAuthStateChange_rejects_iff (env : Env) (event : string)
    (sess : option Session) (e : string) :
  completion env (onAuthStateChange event sess) = Rejected e <->
  exists se p, sess = Some se /\
    fetch_finds env (user_id (session_user se)) p /\
    blocked_or_inactive p = true /\
    signOut_outcome env = Rejected e.
Proof.
  destruct sess as [se|].
  - split.
    + unfold completion, onAuthStateChange, fetchUserProfile. cbn.
      settle_select env (user_id (session_user se)); cbn; try discriminate.
      destruct (blocked_or_inactive p) eqn:B; cbn; [| discriminate].
      settle_signOut env; cbn; [discriminate |].
      intros [= ->]. exists se, p.
      split; [reflexivity |]. split; [| split; [exact B | reflexivity]].
      eexists. split; [exact Esel | split; reflexivity].
    + intros (se' & p & [= <-] & Hfind & Hblk & Hout).
      apply SessionManager.fetched_finds in Hfind.
      unfold fetched in Hfind. revert Hfind.
      unfold completion, onAuthStateChange, fetchUserProfile. cbn.
      settle_select env (user_id (session_user se)); cbn; try discriminate.
      intros [= ->]. rewrite Hblk. cbn. rewrite Hout. reflexivity.
  - split; [discriminate |]. intros (se & p & Hs & _). discriminate Hs.
Qed.

(** The subscriber asks for the remote sign-out exactly when the profile
    it fetched is blocked or inactive. *)
Theorem onAuthStateChange_signs_out_iff (env : Env) (event : string)
    (sess : option Session) :
  ActAwait AuthSignOut ∈ (trace env (onAuthStateChange event sess)).1 <->
  exists se p, sess = Some se /\
    fetch_finds env (user_id (session_user se)) p /\
    blocked_or_inactive p = true.
Proof.
  destruct sess as [se|].
  - split.
    + unfold onAuthStateChange, fetchUserProfile. cbn.
      settle_select env (user_id (session_user se)); cbn;
        try (intros H; elem_cases H; fail).
      destruct (blocked_or_inactive p) eqn:B; cbn;
        [| intros H; elem_cases H].
      intros _. exists se, p.
      split; [reflexivity |]. split; [| exact B].
      eexists. split; [exact Esel | split; reflexivity].
    + intros (se' & p & [= <-] & Hfind & Hblk).
      apply SessionManager.fetched_finds in Hfind.
      unfold fetched in Hfind. revert Hfind.
      unfold onAuthStateChange, fetchUserProfile. cbn.
      settle_select env (user_id (session_user se)); cbn; try discriminate.
      intros [= ->]. rewrite Hblk. cbn.
      settle_signOut env; cbn; repeat constructor.
  - split.
    + intros H. cbn in H. elem_cases H.
    + intros (se & p & Hs & _). discriminate Hs.
Qed.

(** When the profile fetch of an event fails or finds no record, the
    subscriber installs the identity of the event and leaves in place
    whatever profile the state held, also one that belongs to another
    identity; the state stays authenticated exactly if it held a profile. *)
Theorem onAuthStateChange_failed_fetch (env : Env) (event : string)
    (sess : Session) (s : AuthState) :
  fetch_fails env (user_id (session_user sess)) ->
  let s' := run env (onAuthStateChange event (Some sess)) s in
  st_user s' = Some (session_user sess) /\
  st_profile s' = st_profile s /\
  isLoading s' = false /\
  isAuthenticated s' = bool_decide (is_Some (st_profile s)).
Proof.
  intros Hfail. apply SessionManager.fetched_fails in Hfail. cbv zeta.
  rewrite (SessionManager.run_onAuthStateChange_missing env event sess s Hfail).
  repeat split.
Qed.

Lemma onAuthStateChange_failed_fetch_witness :
  let s' := run store (onAuthStateChange "SIGNED_IN" (Some (Sample.session_of "zoe")))
              (Sample.signed_in Sample.alice) in
  st_user s' = Some (Sample.user_of "zoe") /\
  st_profile s' = Some Sample.alice /\
  isAuthenticated s' = true.
Proof.
  cbv zeta.
  destruct (onAuthStateChange_failed_fetch store "SIGNED_IN"
              (Sample.session_of "zoe") (Sample.signed_in Sample.alice))
    as (Hu & Hp & _ & Ha).
  - left. eexists. reflexivity.
  - split; [exact Hu | split; [exact Hp | exact Ha]].
Defined.

(** *** Invariants of the interleaved execution *)

Section Invariant.

Variable P : Action -> Prop.
Variable I : AuthState -> Prop.
Hypothesis I_kept : forall s a, P a -> I s -> I (apply_action s a).

Lemma apply_actions_kept (t : list Action) (s : AuthState) :
  Forall P t -> I s -> I (apply_actions s t).
Proof.
  revert s. induction t as [|a t IH]; intros s Ht Hs; [exact Hs |].
  apply Forall_cons in Ht as [Ha Ht]. simpl. apply IH; [exact Ht |].
  apply I_kept; assumption.
Qed.

Lemma segment_always (p : Prog unit) :
  always P p ->
  Forall P (segment p).1 /\
  forall tk, (segment p).2 = Some tk -> task_always P tk.
Proof.
  induction p as [r|e|u k IH|q k IH|b k IH|n k IH|c k IH]; simpl.
  - intros _. split; [constructor | discriminate].
  - intros _. split; [constructor | discriminate].
  - intros [Ha Hk]. destruct (segment k) as [t r]. destruct (IH Hk) as [Ht Hr].
    split; [constructor; assumption | exact Hr].
  - intros [Ha Hk]. destruct (segment k) as [t r]. destruct (IH Hk) as [Ht Hr].
    split; [constructor; assumption | exact Hr].
  - intros [Ha Hk]. destruct (segment k) as [t r]. destruct (IH Hk) as [Ht Hr].
    split; [constructor; assumption | exact Hr].
  - intros [Ha Hk]. destruct (segment k) as [t r]. destruct (IH Hk) as [Ht Hr].
    split; [constructor; assumption | exact Hr].
  - intros [Ha Hk]. split; [repeat constructor; exact Ha |].
    intros tk [= <-]. exact Hk.
Qed.

Lemma start_good (p : Prog unit) (c : Config) :
  always P p -> config_good P I c -> config_good P I (start p c).
Proof.
  intros Hp [Hs Hpk]. unfold start.
  destruct (segment_always p Hp) as [Ht Hr].
  destruct (segment p) as [t r]. simpl in *. split; simpl.
  - apply apply_actions_kept; assumption.
  - apply Forall_app. split; [exact Hpk |].
    destruct r as [tk|]; simpl; [| constructor].
    constructor; [apply Hr; reflexivity | constructor].
Qed.

Lemma step_good (c : Config) (l : Label) :
  label_always P l -> config_good P I c -> config_good P I (step c l).
Proof.
  destruct l as [| event sess | | | i env]; simpl; intros Hl Hc;
    try (apply start_good; [| exact Hc]; auto; fail).
  destruct (parked c !! i) as [tk|] eqn:Ei; [| exact Hc].
  destruct Hc as [Hs Hpk].
  assert (Htk : task_always P tk).
  { eapply Forall_lookup_1; eassumption. }
  destruct tk as [call k]. simpl. apply start_good; [apply Htk |].
  split; simpl; [exact Hs |].
  apply Forall_delete. exact Hpk.
Qed.

Lemma exec_good (ls : list Label) (c : Config) :
  Forall (label_always P) ls -> config_good P I c ->
  config_good P I (exec c ls).
Proof.
  revert c. induction ls as [|l ls IH]; intros c Hls Hc; [exact Hc |].
  apply Forall_cons in Hls as [Hl Hls]. simpl. apply IH; [exact Hls |].
  apply step_good; assumption.
Qed.

End Invariant.

(** Walk through a program, settling each [await] in every possible way. *)
Ltac walk :=
  repeat (cbn;
    match goal with
    | |- True => exact I
    | |- _ /\ _ => split
    | |- forall o : Outcome _, _ => intros [[]|?]
    | |- context [match ?x with Some _ => _ | None => _ end] => destruct x
    | |- context [if ?b then _ else _] => destruct b eqn:?
    end);
  try assumption.

Lemma onAuthStateChange_stores_no_blocked (event : string) (sess : option Session) :
  always stores_no_blocked (onAuthStateChange event sess).
Proof. unfold onAuthStateChange, fetchUserProfile. walk. Qed.

Lemma getInitialSession_stores_no_blocked :
  always stores_no_blocked getInitialSession.
Proof. unfold getInitialSession, fetchUserProfile. walk. Qed.

Lemma signOut_stores_no_blocked : always stores_no_blocked signOut.
Proof. unfold signOut. walk. Qed.

Lemma handlers_never_set_loading (l : Label) : label_always never_sets_loading l.
Proof.
  destruct l as [| event sess | | | i env]; simpl;
    unfold getInitialSession, onAuthStateChange, signOut, refreshProfile,
      fetchUserProfile; try intros u; walk.
Qed.

Lemma good_standing_kept (s : AuthState) (a : Action) :
  stores_no_blocked a -> profile_in_good_standing s ->
  profile_in_good_standing (apply_action s a).
Proof.
  unfold profile_in_good_standing.
  destruct a as [u|[q|]|b|n|c]; simpl; intros Ha Hs p; try apply Hs.
  - intros [= <-]. exact Ha.
  - discriminate.
Qed.

Lemma loading_kept (s : AuthState) (a : Action) :
  never_sets_loading a -> isLoading s = false ->
  isLoading (apply_action s a) = false.
Proof.
  destruct a as [u|q|[|]|n|c]; simpl; intros Ha Hs; try exact Hs.
  - destruct Ha.
  - reflexivity.
Qed.

(** However mount, auth events, sign-outs and the settling of their
    [await]s interleave, as long as [refreshProfile] is not called the
    profile held in the state is never a blocked or inactive one. *)
Theorem no_blocked_profile_without_refresh (ls : list Label) :
  without_refresh ls ->
  profile_in_good_standing (auth (exec initial_config ls)).
Proof.
  intros Hls.
  apply (exec_good stores_no_blocked profile_in_good_standing good_standing_kept).
  - eapply Forall_impl; [exact Hls |].
    intros [| event sess | | | i env] Hl.
    + exact getInitialSession_stores_no_blocked.
    + exact (onAuthStateChange_stores_no_blocked event sess).
    + exact signOut_stores_no_blocked.
    + contradiction.
    + exact I.
  - split; [| constructor]. intros p Hp. discriminate Hp.
Qed.

Lemma no_blocked_profile_without_refresh_witness :
  profile_in_good_standing
    (auth (exec initial_config
             [Mount;
              AuthEvent "SIGNED_IN" (Some (Sample.session_of "carol"));
              Settle 1 store;
              Settle 0 (online (Some (Sample.session_of "carol")) Sample.table);
              AuthEvent "SIGNED_IN" (Some (Sample.session_of "alice"));
              Settle 2 store; CallSignOut])).
Proof.
  apply no_blocked_profile_without_refresh.
  repeat constructor; discriminate.
Defined.

(** [isLoading] never comes back: no operation of the provider calls
    [setIsLoading(true)], so once an execution has reached a state with
    [isLoading] false, every continuation of it, in any interleaving, keeps
    it false. *)
Theorem loading_stays_cleared (ls ls' : list Label) :
  isLoading (auth (exec initial_config ls)) = false ->
  isLoading (auth (exec initial_config (ls ++ ls'))) = false.
Proof.
  intros Hl. rewrite SessionManager.exec_app.
  assert (Hgood : config_good never_sets_loading (fun _ => True)
                    (exec initial_config ls)).
  { apply exec_good.
    - intros; exact I.
    - apply Forall_forall. intros l _. apply handlers_never_set_loading.
    - split; [exact I | constructor]. }
  apply (exec_good never_sets_loading (fun s => isLoading s = false) loading_kept).
  - apply Forall_forall. intros l _. apply handlers_never_set_loading.
  - split; [exact Hl | apply Hgood].
Qed.

Lemma loading_stays_cleared_witness :
  isLoading
    (auth (exec initial_config
             ([AuthEvent "INITIAL_SESSION" None] ++
              [Mount; AuthEvent "SIGNED_IN" (Some (Sample.session_of "carol"));
               CallRefreshProfile; Settle 0 store; Settle 0 store]))) = false.
Proof.
  apply (loading_stays_cleared [AuthEvent "INITIAL_SESSION" None]).
  reflexivity.
Defined.

(** *** Capabilities and role flags *)

(** Only an admin has every capability: a state passes [hasPermission] for
    all names exactly when its profile has the role [admin]. *)
Theorem every_capability_iff_admin (s : AuthState) :
  (forall name, hasPermission s name = true) <-> isAdmin s = true.
Proof.
  unfold hasPermission, isAdmin, role_is.
  destruct (st_profile s) as [p|]; [| split; [intros H; discriminate (H "") | discriminate]].
  split.
  - intros H. apply bool_decide_eq_true.
    destruct (decide (role p = admin)) as [Hr|Hr]; [exact Hr | exfalso].
    destruct (permissions p) as [perms|].
    + destruct (exist_fresh (dom perms)) as [name Hname].
      specialize (H name). apply not_elem_of_dom in Hname.
      unfold js_get in H. rewrite Hname in H. discriminate H.
    + specialize (H ""). destruct (role p); try contradiction; discriminate H.
  - intros Hr name. apply bool_decide_eq_true in Hr.
    rewrite decide_True by exact Hr. reflexivity.
Qed.

(** Roles are not cumulative: without a [permissions] override, two
    profiles that are not admins and are granted the same capability have the
    same role. *)
Theorem roles_not_cumulative (s s' : AuthState) (p p' : UserProfile)
    (name : string) :
  st_profile s = Some p -> st_profile s' = Some p' ->
  permissions p = None -> permissions p' = None ->
  role p <> admin -> role p' <> admin ->
  hasPermission s name = true -> hasPermission s' name = true ->
  role p = role p'.
Proof.
  unfold hasPermission. intros -> -> -> -> Hr Hr'.
  rewrite !decide_False by assumption.
  destruct (role p), (role p'); try contradiction; try reflexivity; simpl;
    unfold includes; rewrite !bool_decide_eq_true; intros H H'; exfalso;
    elem_cases H; subst name; elem_cases H'.
Qed.

Lemma roles_not_cumulative_witness :
  role Sample.bob = role (Sample.profile_of "bea" moderator true false None).
Proof.
  apply (roles_not_cumulative (Sample.signed_in Sample.bob)
           (Sample.signed_in (Sample.profile_of "bea" moderator true false None))
           Sample.bob (Sample.profile_of "bea" moderator true false None)
           "view_analytics");
    try reflexivity; discriminate.
Defined.

(** [refreshProfile] only ever writes the profile: identity and
    [isLoading] are as before, its promise resolves, and without an identity
    it does nothing at all, not even a query. *)
Theorem refreshProfile_only_profile (env : Env) (s : AuthState) :
  st_user (run env (refreshProfile (st_user s)) s) = st_user s /\
  isLoading (run env (refreshProfile (st_user s)) s) = isLoading s /\
  completion env (refreshProfile (st_user s)) = Resolved () /\
  (st_user s = None ->
     (trace env (refreshProfile (st_user s))).1 = [] /\
     run env (refreshProfile (st_user s)) s = s).
Proof.
  destruct (st_user s) as [u|] eqn:Hu.
  - destruct (SessionManager.run_refreshProfile env s u Hu) as [Hrun Hdone].
    rewrite Hu in Hrun, Hdone. rewrite Hrun, Hdone. simpl.
    split; [reflexivity |]. split; [reflexivity |]. split; [reflexivity |].
    intros H. discriminate H.
  - unfold run. simpl.
    split; [exact Hu |]. split; [reflexivity |]. split; [reflexivity |].
    intros _. split; reflexivity.
Qed.

Lemma refreshProfile_only_profile_witness :
  run store (refreshProfile None)
    {| st_user := None; st_profile := Some Sample.alice; isLoading := false |}
  = {| st_user := None; st_profile := Some Sample.alice; isLoading := false |}.
Proof.
  destruct (refreshProfile_only_profile store
              {| st_user := None; st_profile := Some Sample.alice;
                 isLoading := false |}) as (_ & _ & _ & H).
  apply H. reflexivity.
Defined.

Lemma onAuthStateChange_rejects_iff_witness :
  completion store_auth_down
    (onAuthStateChange "SIGNED_IN" (Some (Sample.session_of "carol")))
  = Rejected "Failed to fetch".
Proof.
  apply onAuthStateChange_rejects_iff.
  exists (Sample.session_of "carol"), Sample.carol.
  split; [reflexivity |]. split; [| split; reflexivity].
  eexists. repeat split.
Defined.

Lemma onAuthStateChange_signs_out_iff_witness :
  ActAwait AuthSignOut
    ∈ (trace store
         (onAuthStateChange "SIGNED_IN" (Some (Sample.session_of "dave")))).1.
Proof.
  apply onAuthStateChange_signs_out_iff.
  exists (Sample.session_of "dave"), Sample.dave.
  split; [reflexivity |]. split; [| reflexivity].
  eexists. repeat split.
Defined.

Lemma every_capability_iff_admin_witness :
  hasPermission carol_before "delete_everything" = true.
Proof.
  apply (proj2 (every_capability_iff_admin carol_before)). reflexivity.
Defined.

End Provider.

(** ** More on the guards and the route table *)

Module Routes.

(** Split a state into the cases the guards distinguish. *)
Ltac guard_cases s :=
  let u := fresh "u" in
  let q := fresh "q" in
  let l := fresh "l" in
  destruct s as [[u|] [q|] [|]];
  try (destruct q as [? ? ? [| | |] ? ? ?]).

(** [AdminRoute] shows the page exactly to an authenticated admin once
    loading is over; any other authenticated profile sees the generic denial
    naming its role and [admin]. *)
Theorem AdminRoute_grants_iff (s : AuthState) (location children : string) :
  (AdminRoute s location children = Children children <->
     isLoading s = false /\ isAuthenticated s = true /\ isAdmin s = true) /\
  (forall p, isLoading s = false -> isAuthenticated s = true ->
     st_profile s = Some p -> role p <> admin ->
     AdminRoute s location children
       = AccessDenied (role_name (role p)) "admin").
Proof.
  split.
  - guard_cases s; vm_compute; split; try discriminate; try reflexivity;
      try (intros (H1 & H2 & H3); discriminate); repeat split.
  - intros p Hl Ha Hp Hr.
    guard_cases s; simpl in *; try discriminate;
      injection Hp as <-; simpl in *; try contradiction; reflexivity.
Qed.

Lemma AdminRoute_grants_iff_witness :
  AdminRoute (Sample.signed_in Sample.bob) "/admin/users" "UsersPage"
    = AccessDenied "moderator" "admin".
Proof.
  destruct (AdminRoute_grants_iff (Sample.signed_in Sample.bob) "/admin/users"
              "UsersPage") as [_ H].
  apply (H Sample.bob); try reflexivity. discriminate.
Defined.

(** The guards are ordered: whoever passes [AdminRoute] passes
    [ModeratorRoute], whoever passes [ModeratorRoute] passes [EditorRoute],
    and whoever passes [AdminRoute] passes a plain [ProtectedRoute]. *)
Theorem guard_hierarchy (s : AuthState) (location children : string) :
  (AdminRoute s location children = Children children ->
   ModeratorRoute s location children = Children children) /\
  (ModeratorRoute s location children = Children children ->
   EditorRoute s location children = Children children) /\
  (AdminRoute s location children = Children children ->
   ProtectedRoute s location children None true None = Children children).
Proof.
  repeat split; guard_cases s; vm_compute; try discriminate; reflexivity.
Qed.

Lemma guard_hierarchy_witness :
  ModeratorRoute carol_before "/admin/tags" "TagsPage" = Children "TagsPage" /\
  EditorRoute (Sample.signed_in Sample.bob) "/admin/posts" "PostsPage"
    = Children "PostsPage".
Proof.
  split.
  - destruct (guard_hierarchy carol_before "/admin/tags" "TagsPage") as [H _].
    apply H. reflexivity.
  - destruct (guard_hierarchy (Sample.signed_in Sample.bob) "/admin/posts"
                "PostsPage") as (_ & H & _).
    apply H. reflexivity.
Defined.

(** With [requireAuth] false, [ProtectedRoute] never redirects: once
    loading is over a visitor without profile gets the children when no role
    is required, and with a required role the caller's fallback or else the
    generic denial, which names the current role as [Unknown]. *)
Theorem ProtectedRoute_optional_auth (s : AuthState) (location children : string)
    (requiredRole : option Role) (fallback : option string) :
  isLoading s = false -> st_profile s = None ->
  ProtectedRoute s location children requiredRole false fallback =
    match requiredRole, fallback with
    | None, _ => Children children
    | Some r, Some f => Fallback f
    | Some r, None => AccessDenied "Unknown" (role_name r)
    end.
Proof.
  unfold ProtectedRoute, role_is, role_or_unknown. intros -> ->. simpl.
  destruct requiredRole as [r|], fallback as [f|]; reflexivity.
Qed.

Lemma ProtectedRoute_optional_auth_witness :
  ProtectedRoute {| st_user := None; st_profile := None; isLoading := false |}
    "/" "Index" (Some editor) false None = AccessDenied "Unknown" "editor".
Proof.
  apply (ProtectedRoute_optional_auth
           {| st_user := None; st_profile := None; isLoading := false |}
           "/" "Index" (Some editor) None); reflexivity.
Defined.

(** Without a profile in the state every guard of the module behaves the
    same: the loading view while [isLoading], and afterwards the redirect to
    [/login] that carries the requested location. *)
Theorem guards_without_profile (s : AuthState) (location children : string) :
  st_profile s = None ->
  let expected :=
    if isLoading s then LoadingView else NavigateTo "/login" location in
  (forall requiredRole fallback,
     ProtectedRoute s location children requiredRole true fallback = expected) /\
  AdminRoute s location children = expected /\
  ModeratorRoute s location children = expected /\
  EditorRoute s location children = expected.
Proof.
  destruct s as [u q l]. simpl. intros ->.
  unfold AdminRoute, ModeratorRoute, EditorRoute, ProtectedRoute,
    isAuthenticated, role_is. simpl.
  destruct l, u; simpl; repeat split;
    try (intros requiredRole fallback); reflexivity.
Qed.

Lemma guards_without_profile_witness :
  ModeratorRoute {| st_user := None; st_profile := None; isLoading := false |}
    "/admin/tags" "TagsPage" = NavigateTo "/login" "/admin/tags" /\
  EditorRoute initial_state "/admin/posts" "PostsPage" = LoadingView.
Proof.
  split.
  - apply (guards_without_profile
             {| st_user := None; st_profile := None; isLoading := false |}
             "/admin/tags" "TagsPage"). reflexivity.
  - apply (guards_without_profile initial_state "/admin/posts" "PostsPage").
    reflexivity.
Defined.

(** The allow-list guards look at the profile only: for an allowed role
    they show the page whatever [isLoading] and the identity are, also where
    [ProtectedRoute] with the same required role shows the loading view or
    redirects to [/login]. *)
Theorem allow_list_guards_profile_only (s : AuthState) (p : UserProfile)
    (location children : string) :
  st_profile s = Some p ->
  (role p ∈ [admin; moderator] ->
     ModeratorRoute s location children = Children children) /\
  (role p ∈ [admin; moderator; editor] ->
     EditorRoute s location children = Children children) /\
  (isLoading s = true ->
     forall r fb, ProtectedRoute s location children r true fb = LoadingView) /\
  (isLoading s = false -> st_user s = None ->
     forall r fb, ProtectedRoute s location children r true fb
                  = NavigateTo "/login" location).
Proof.
  intros Hp. repeat split.
  - intros Hr. guard_cases s; simpl in Hp; try discriminate Hp;
      injection Hp as <-; simpl in Hr; try reflexivity; elem_cases Hr.
  - intros Hr. guard_cases s; simpl in Hp; try discriminate Hp;
      injection Hp as <-; simpl in Hr; try reflexivity; elem_cases Hr.
  - intros Hl r fb. unfold ProtectedRoute. rewrite Hl. reflexivity.
  - intros Hl Hu r fb. unfold ProtectedRoute, isAuthenticated.
    rewrite Hl, Hu. reflexivity.
Qed.

Lemma allow_list_guards_profile_only_witness :
  let s := auth (exec initial_config late_fetch) in
  st_user s = None /\
  ModeratorRoute s "/admin/tags" "TagsPage" = Children "TagsPage" /\
  ProtectedRoute s "/admin/tags" "TagsPage" (Some moderator) true None
    = NavigateTo "/login" "/admin/tags".
Proof.
  cbv zeta. split; [reflexivity |].
  destruct (allow_list_guards_profile_only (auth (exec initial_config late_fetch))
              Sample.bob "/admin/tags" "TagsPage" eq_refl)
    as (Hm & _ & _ & Hp).
  split.
  - apply Hm. repeat constructor.
  - apply Hp; reflexivity.
Defined.

(** The pages under [/admin] by role, for an authenticated state once
    loading is over: an admin reaches every route; a moderator all but the
    four admin-only ones; an editor the plain routes and the two editor
    routes; a user the plain routes only. *)
Theorem admin_routes_by_role (s : AuthState) (p : UserProfile)
    (location : string) :
  isLoading s = false -> isAuthenticated s = true -> st_profile s = Some p ->
  open_paths s location =
    match role p with
    | admin => route_path <$> admin_routes
    | moderator =>
        [""; "posts"; "categories"; "tags"; "comments"; "likes";
         "comment-likes"; "bookmarks"; "followers"; "notifications";
         "post-images"; "analytics"]
    | editor =>
        [""; "posts"; "likes"; "bookmarks"; "followers"; "notifications";
         "post-images"]
    | user => [""; "likes"; "bookmarks"; "followers"; "notifications"]
    end.
Proof.
  intros Hl Ha Hp.
  guard_cases s; simpl in Hl, Ha, Hp; try discriminate;
    injection Hp as <-; reflexivity.
Qed.

Lemma admin_routes_by_role_witness :
  open_paths (Sample.signed_in Sample.alice) "/admin"
    = [""; "posts"; "likes"; "bookmarks"; "followers"; "notifications";
       "post-images"].
Proof.
  apply (admin_routes_by_role (Sample.signed_in Sample.alice) Sample.alice "/admin");
    reflexivity.
Defined.

End Routes.

(** ** The pages *)

Module Pages.

(** Settle the next [await] of the program in the goal in every way. *)
Ltac settle_next env :=
  match goal with
  | |- context [env ?c] =>
      let E := fresh "Eask" in destruct (env c) as [[]|?] eqn:E; cbn
  end.

Ltac split_next :=
  match goal with
  | |- context [match ?x with Some _ => _ | None => _ end] =>
      let E := fresh "Eopt" in destruct x eqn:E; cbn
  | |- context [if ?b then _ else _] =>
      let E := fresh "Eif" in destruct b eqn:E; cbn
  end.

Ltac walk_ui env := cbn; repeat first [split_next | settle_next env].

(** [handleLogin] always settles: whatever the form holds and however the
    collaborators answer, its promise resolves, it starts by clearing the
    error and raising the page's loading flag, and its last step lowers the
    flag again. *)
Theorem handleLogin_settles (env : UiEnv) (formData : LoginFormData)
    (now : string) :
  settles env (handleLogin formData now) = Resolved () /\
  take 2 (steps env (handleLogin formData now))
    = [Did (SetError None); Did (SetPageLoading true)] /\
  last (steps env (handleLogin formData now)) = Some (Did (SetPageLoading false)).
Proof.
  unfold settles, steps, handleLogin, updateUserLoginInfo.
  walk_ui env; repeat split.
Qed.

(** Split a membership in an explicit list of steps into its cases. *)
Ltac step_cases H :=
  repeat (apply elem_of_cons in H as [H | H]; [try discriminate H |]);
  try (apply elem_of_nil in H; destruct H).

(** With an empty email or an empty password [handleLogin] contacts no
    collaborator: it shows the validation error and ends. *)
Theorem handleLogin_empty_form (env : UiEnv) (formData : LoginFormData)
    (now : string) :
  form_email formData = "" \/ form_password formData = "" ->
  steps env (handleLogin formData now) =
    [Did (SetError None); Did (SetPageLoading true);
     Did (SetError (Some "Please enter both email and password"));
     Did (SetPageLoading false)].
Proof.
  intros H. unfold steps, handleLogin.
  assert (Hempty : bool_decide (form_email formData = "")
                   || bool_decide (form_password formData = "") = true).
  { apply orb_true_iff. rewrite !bool_decide_eq_true. exact H. }
  rewrite Hempty. reflexivity.
Qed.

Lemma handleLogin_empty_form_witness :
  steps (ui_env store (Rejected "unused") (Rejected "unused") (Rejected "unused")
           (Rejected "unused"))
    (handleLogin {| form_email := "alice@example.org"; form_password := "" |}
       "2024-01-01T00:00:00.000Z") =
    [Did (SetError None); Did (SetPageLoading true);
     Did (SetError (Some "Please enter both email and password"));
     Did (SetPageLoading false)].
Proof.
  apply handleLogin_empty_form. right. reflexivity.
Defined.

Lemma landing_cases (userRole to : string) :
  landing userRole = Some to <->
  (userRole ∈ ["admin"; "moderator"; "editor"] /\ to = "/admin") \/
  (userRole = "user" /\ to = "/").
Proof.
  unfold landing. split.
  - repeat case_bool_decide; simpl; intros [= <-]; subst;
      first [ left; split; [repeat constructor | reflexivity]
            | right; split; reflexivity ].
  - intros [[Hr ->] | [-> ->]]; [| reflexivity].
    step_cases Hr; subst; reflexivity.
Qed.

Lemma landing_default (userRole : string) :
  landing userRole = None <->
  userRole ∉ ["admin"; "moderator"; "editor"; "user"].
Proof.
  unfold landing. split.
  - repeat case_bool_decide; simpl; try discriminate.
    intros _ Hr. step_cases Hr; contradiction.
  - intros Hr. repeat case_bool_decide; simpl; try reflexivity;
      exfalso; apply Hr; subst; repeat constructor.
Qed.

Lemma handleLogin_navigation (env : UiEnv) (formData : LoginFormData)
    (now to : string) :
  Did (Navigate to) ∈ steps env (handleLogin formData now) <->
  form_email formData <> "" /\ form_password formData <> "" /\
  exists u p,
    env (SignInWithPassword (form_email formData) (form_password formData))
      = Resolved {| auth_user := Some u; auth_error := None |} /\
    env (SelectLoginProfile (user_id u))
      = Resolved {| login_data := Some p; login_error := None |} /\
    login_blocked p = false /\ login_is_active p = true /\
    landing (login_role p) = Some to.
Proof.
  unfold steps, handleLogin, updateUserLoginInfo. split.
  - cbn.
    destruct (bool_decide (form_email formData = "")) eqn:He; cbn;
      [intros H; step_cases H |].
    destruct (bool_decide (form_password formData = "")) eqn:Hp; cbn;
      [intros H; step_cases H |].
    apply bool_decide_eq_false in He, Hp.
    destruct (env (SignInWithPassword _ _)) as [[[u|] [m|]]|?] eqn:Ein; cbn;
      try (intros H; step_cases H; fail).
    destruct (env (SelectLoginProfile (user_id u)))
      as [[[p|] [e|]]|?] eqn:Esel; cbn;
      try (walk_ui env; intros H; step_cases H; fail).
    destruct (login_blocked p) eqn:Hb; cbn;
      [walk_ui env; intros H; step_cases H |].
    destruct (bool_decide (login_is_active p = false)) eqn:Ha; cbn;
      [walk_ui env; intros H; step_cases H |].
    apply bool_decide_eq_false in Ha.
    destruct (landing (login_role p)) as [dest|] eqn:Hland; cbn.
    + intros H. split; [exact He |]. split; [exact Hp |].
      exists u, p. split; [reflexivity |]. split; [exact Esel |].
      split; [exact Hb |].
      split; [destruct (login_is_active p); congruence |].
      rewrite Hland. f_equal.
      revert H. walk_ui env; intros H; step_cases H; congruence.
    + walk_ui env; intros H; step_cases H.
  - intros (He & Hp & u & p & Hin & Hsel & Hb & Ha & Hland). cbn.
    rewrite (bool_decide_eq_false_2 _ He), (bool_decide_eq_false_2 _ Hp). cbn.
    rewrite Hin. cbn. rewrite Hsel. cbn. rewrite Hb, Ha.
    rewrite (bool_decide_eq_false_2 (true = false)) by discriminate. cbn.
    rewrite Hland.
    walk_ui env; repeat first [apply list_elem_of_here | apply list_elem_of_further].
Qed.

(** [handleLogin] navigates exactly when the form is filled in, the
    sign-in resolves with a user and no error, the profile query resolves
    without error with a row that is neither blocked nor inactive, and the
    role of the row is one of the four the [switch] lists: to [/admin] for
    [admin], [moderator] and [editor], to [/] for [user].  A row with any
    other role is not navigated for.  A failure to record the login never
    prevents the navigation. *)
Theorem handleLogin_navigates_iff (env : UiEnv) (formData : LoginFormData)
    (now to : string) :
  Did (Navigate to) ∈ steps env (handleLogin formData now) <->
  form_email formData <> "" /\ form_password formData <> "" /\
  exists u p,
    env (SignInWithPassword (form_email formData) (form_password formData))
      = Resolved {| auth_user := Some u; auth_error := None |} /\
    env (SelectLoginProfile (user_id u))
      = Resolved {| login_data := Some p; login_error := None |} /\
    login_blocked p = false /\ login_is_active p = true /\
    ((login_role p ∈ ["admin"; "moderator"; "editor"] /\ to = "/admin") \/
     (login_role p = "user" /\ to = "/")).
Proof.
  rewrite handleLogin_navigation.
  split; intros (He & Hp & u & p & Hin & Hsel & Hb & Ha & Hto);
    (split; [exact He |]); (split; [exact Hp |]); exists u, p;
    repeat (split; [assumption |]); apply landing_cases; exact Hto.
Qed.

Lemma handleLogin_navigates_iff_witness :
  Did (Navigate "/admin")
    ∈ steps alice_logs_in (handleLogin alice_form "2024-01-01T00:00:00.000Z").
Proof.
  apply (handleLogin_navigates_iff alice_logs_in alice_form
           "2024-01-01T00:00:00.000Z" "/admin").
  split; [discriminate |]. split; [discriminate |].
  exists (Sample.user_of "alice"), (row_of Sample.alice).
  split; [reflexivity |]. split; [reflexivity |].
  split; [reflexivity |]. split; [reflexivity |].
  left. split; [| reflexivity]. repeat constructor.
Defined.

(** [handleLogin] asks for the remote sign-out exactly when the sign-in
    itself succeeded and the profile query then reported an error or returned
    a row that is blocked, inactive, or of a role the [switch] does not list;
    an empty form, a rejected sign-in, a sign-in error or a missing user
    never triggers it. *)
Theorem handleLogin_signs_out_iff (env : UiEnv) (formData : LoginFormData)
    (now : string) :
  Asked (Shared AuthSignOut) ∈ steps env (handleLogin formData now) <->
  form_email formData <> "" /\ form_password formData <> "" /\
  exists u q,
    env (SignInWithPassword (form_email formData) (form_password formData))
      = Resolved {| auth_user := Some u; auth_error := None |} /\
    env (SelectLoginProfile (user_id u)) = Resolved q /\
    (is_Some (login_error q) \/
     exists p, login_data q = Some p /\
       (login_blocked p = true \/ login_is_active p = false \/
        login_role p ∉ ["admin"; "moderator"; "editor"; "user"])).
Proof.
  unfold steps, handleLogin, updateUserLoginInfo. split.
  - cbn.
    destruct (bool_decide (form_email formData = "")) eqn:He; cbn;
      [intros H; step_cases H |].
    destruct (bool_decide (form_password formData = "")) eqn:Hp; cbn;
      [intros H; step_cases H |].
    apply bool_decide_eq_false in He, Hp.
    destruct (env (SignInWithPassword _ _)) as [[[u|] [m|]]|?] eqn:Ein; cbn;
      try (intros H; step_cases H; fail).
    destruct (env (SelectLoginProfile (user_id u)))
      as [[[p|] [e|]]|?] eqn:Esel; cbn;
      try (intros H; step_cases H; fail);
      try (intros _; split; [exact He |]; split; [exact Hp |];
           exists u; eexists; split; [reflexivity |]; split; [exact Esel |];
           left; eexists; reflexivity).
    intros H. split; [exact He |]. split; [exact Hp |].
    exists u. eexists. split; [reflexivity |]. split; [exact Esel |].
    right. exists p. split; [reflexivity |]. revert H.
    destruct (login_blocked p) eqn:Hb; cbn; [intros _; left; reflexivity |].
    destruct (bool_decide (login_is_active p = false)) eqn:Ha; cbn.
    + intros _. right. left. apply bool_decide_eq_true in Ha. exact Ha.
    + destruct (landing (login_role p)) as [dest|] eqn:Hland; cbn.
      * walk_ui env; intros H; step_cases H.
      * intros _. right. right. apply landing_default. exact Hland.
  - intros (He & Hp & u & q & Hin & Hsel & Hq). cbn.
    rewrite (bool_decide_eq_false_2 _ He), (bool_decide_eq_false_2 _ Hp). cbn.
    rewrite Hin. cbn. rewrite Hsel. cbn.
    destruct q as [d [e|]]; cbn.
    + settle_next env;
        repeat first [apply list_elem_of_here | apply list_elem_of_further].
    + destruct Hq as [[x Hx] | (p & Hd & Hbad)]; [discriminate Hx |].
      simpl in Hd. subst d. cbn.
      destruct (login_blocked p) eqn:Hb; cbn;
        [settle_next env;
         repeat first [apply list_elem_of_here | apply list_elem_of_further] |].
      destruct (bool_decide (login_is_active p = false)) eqn:Ha; cbn;
        [settle_next env;
         repeat first [apply list_elem_of_here | apply list_elem_of_further] |].
      apply bool_decide_eq_false in Ha.
      destruct Hbad as [Hbad | [Hbad | Hbad]];
        [discriminate Hbad | contradiction |].
      apply landing_default in Hbad. rewrite Hbad.
      walk_ui env;
        repeat first [apply list_elem_of_here | apply list_elem_of_further].
Qed.

Lemma handleLogin_signs_out_iff_witness :
  Asked (Shared AuthSignOut)
    ∈ steps owner_logs_in (handleLogin alice_form "2024-01-01T00:00:00.000Z").
Proof.
  apply handleLogin_signs_out_iff.
  split; [discriminate |]. split; [discriminate |].
  exists (Sample.user_of "alice"). eexists.
  split; [reflexivity |]. split; [reflexivity |].
  right. eexists. split; [reflexivity |]. right. right.
  simpl. intros H. step_cases H.
Defined.

(** The login page and the provider let in the same users as long as the
    role of the row is one of the four declared ones, which is what the
    provider's profile type holds: when the login page's profile query gets
    the answer the provider's query gets, then for a filled-in form and a
    successful sign-in [handleLogin] navigates exactly when the subscriber,
    handling the session of that user from a state without profile, ends
    authenticated. *)
Theorem login_and_provider_agree (env : Env) (uenv : UiEnv)
    (formData : LoginFormData) (now event : string) (sess : Session)
    (s : AuthState) :
  form_email formData <> "" -> form_password formData <> "" ->
  st_profile s = None ->
  uenv (SignInWithPassword (form_email formData) (form_password formData))
    = Resolved {| auth_user := Some (session_user sess); auth_error := None |} ->
  uenv (SelectLoginProfile (user_id (session_user sess)))
    = login_view (select_outcome env (user_id (session_user sess))) ->
  (exists to, Did (Navigate to) ∈ steps uenv (handleLogin formData now)) <->
  isAuthenticated (run env (onAuthStateChange event (Some sess)) s) = true.
Proof.
  intros He Hp Hs Hsign Hview. split.
  - intros (to & H). apply handleLogin_navigation in H
      as (_ & _ & u & p & Hin & Hsel & Hb & Ha & _).
    rewrite Hsign in Hin. injection Hin as <-.
    rewrite Hview in Hsel. unfold login_view in Hsel.
    destruct (select_outcome env (user_id (session_user sess)))
      as [[[q|] [e|]]|?] eqn:Esel; simpl in Hsel; try discriminate Hsel.
    injection Hsel as <-. simpl in Hb, Ha.
    rewrite (SessionManager.run_onAuthStateChange_found env event sess q s).
    + reflexivity.
    + unfold fetched. rewrite Esel. reflexivity.
    + unfold blocked_or_inactive. rewrite Hb, Ha. reflexivity.
  - intros Hauth.
    destruct (fetched env (user_id (session_user sess))) as [p|] eqn:Hf.
    + destruct (blocked_or_inactive p) eqn:Hblk.
      * destruct (SessionManager.run_onAuthStateChange_blocked env event sess p s
                    Hf Hblk) as [Hrun _].
        rewrite Hrun in Hauth. unfold isAuthenticated in Hauth. simpl in Hauth.
        rewrite Hs in Hauth. discriminate Hauth.
      * exists (default "" (landing (role_name (role p)))).
        apply handleLogin_navigation.
        split; [exact He |]. split; [exact Hp |].
        exists (session_user sess), (row_of p).
        apply SessionManager.fetched_finds in Hf as (r & Hr & Her & Hd).
        unfold blocked_or_inactive in Hblk.
        apply orb_false_iff in Hblk as [Hb Ha]. apply bool_decide_eq_false in Ha.
        split; [exact Hsign |]. split.
        { rewrite Hview, Hr. destruct r as [d e]. simpl in *. subst.
          reflexivity. }
        split; [exact Hb |].
        split; [simpl; destruct (is_active p); congruence |].
        simpl. destruct (role p); reflexivity.
    + rewrite (SessionManager.run_onAuthStateChange_missing env event sess s Hf)
        in Hauth.
      unfold isAuthenticated in Hauth. simpl in Hauth.
      rewrite Hs in Hauth. discriminate Hauth.
Qed.

Lemma login_and_provider_agree_witness :
  (exists to, Did (Navigate to)
                ∈ steps alice_logs_in
                    (handleLogin alice_form "2024-01-01T00:00:00.000Z")) <->
  isAuthenticated
    (run store (onAuthStateChange "SIGNED_IN" (Some (Sample.session_of "alice")))
       initial_state) = true.
Proof.
  apply (login_and_provider_agree store alice_logs_in alice_form
           "2024-01-01T00:00:00.000Z" "SIGNED_IN" (Sample.session_of "alice")
           initial_state);
    [discriminate | discriminate | reflexivity | reflexivity | reflexivity].
Defined.

Lemma js_add_safe (c : Z) :
  (- 2 ^ 53 <= c < 2 ^ 53)%Z -> js_add c 1 = (c + 1)%Z.
Proof.
  change (2 ^ 53)%Z with 9007199254740992%Z. intros Hc.
  unfold js_add, to_double. cbv zeta.
  change (2 ^ 53)%Z with 9007199254740992%Z.
  destruct (Z.ltb_spec (Z.abs (c + 1)) 9007199254740992) as [Hlt | Hge];
    [reflexivity |].
  assert (Hc1 : (c + 1)%Z = 9007199254740992%Z) by lia.
  rewrite Hc1. reflexivity.
Qed.

(** [updateUserLoginInfo] never blocks a login: its promise always
    resolves.  It writes exactly when the count query resolves with a row,
    and then the time it was given and the sum of the old count and one as
    numbers, a [null] count being taken as zero.  That sum is the old count
    plus one for every count from [-2^53] up to [2^53 - 1]; at [2^53] the
    addition is absorbed and the count written is [2^53] again. *)
Theorem updateUserLoginInfo_counts (env : UiEnv) (userId now : string) :
  settles env (updateUserLoginInfo userId now) = Resolved () /\
  (forall userId' stamp n,
     Asked (UpdateLoginInfo userId' stamp n)
       ∈ steps env (updateUserLoginInfo userId now) <->
     userId' = userId /\ stamp = now /\
     exists login_count,
       env (SelectLoginCount userId)
         = Resolved {| currentProfile := Some login_count |} /\
       n = js_add (default 0%Z login_count) 1) /\
  (forall c, (- 2 ^ 53 <= c < 2 ^ 53)%Z -> js_add c 1 = (c + 1)%Z) /\
  js_add (2 ^ 53) 1 = (2 ^ 53)%Z.
Proof.
  split; [| split; [| split; [exact js_add_safe | reflexivity]]].
  - unfold settles, updateUserLoginInfo. cbn.
    destruct (env (SelectLoginCount userId)) as [[[c|]]|?]; cbn;
      try reflexivity.
    destruct (env (UpdateLoginInfo userId now (js_add (default 0%Z c) 1)))
      as [[]|?]; reflexivity.
  - intros userId' stamp n. unfold steps, updateUserLoginInfo. cbn.
    destruct (env (SelectLoginCount userId)) as [[[c|]]|?] eqn:Ecount; cbn.
    + destruct (env (UpdateLoginInfo userId now (js_add (default 0%Z c) 1)))
        as [[]|?]; cbn; split.
      * intros H. step_cases H. injection H as -> -> ->.
        repeat split. exists c. split; reflexivity.
      * intros (-> & -> & c' & [= <-] & ->).
        apply list_elem_of_further, list_elem_of_here.
      * intros H. step_cases H. injection H as -> -> ->.
        repeat split. exists c. split; reflexivity.
      * intros (-> & -> & c' & [= <-] & ->).
        apply list_elem_of_further, list_elem_of_here.
    + split.
      * intros H. step_cases H.
      * intros (_ & _ & c' & Hc & _). discriminate Hc.
    + split.
      * intros H. step_cases H.
      * intros (_ & _ & c' & Hc & _). discriminate Hc.
Qed.

(** [handlePasswordUpdate] sends a password to the identity store exactly
    when there is a user, the new password and its confirmation are equal and
    the new password has at least eight code units, and what it sends is the
    new password; the current password of the form plays no part. *)
Theorem handlePasswordUpdate_guard (env : UiEnv) (user : option User)
    (passwordForm : PasswordForm) :
  (forall password,
     Asked (UpdateUserPassword password)
       ∈ steps env (handlePasswordUpdate user passwordForm) <->
     is_Some user /\
     new_password passwordForm = confirm_password passwordForm /\
     8 <= String.length (new_password passwordForm) /\
     password = new_password passwordForm) /\
  (forall current,
     steps env (handlePasswordUpdate user passwordForm) =
     steps env (handlePasswordUpdate user
                  {| current_password := current;
                     new_password := new_password passwordForm;
                     confirm_password := confirm_password passwordForm |})).
Proof.
  split; [| intros current; reflexivity].
  intros password. unfold steps, handlePasswordUpdate.
  destruct user as [u|]; [| cbn].
  - destruct (bool_decide (new_password passwordForm
                           = confirm_password passwordForm)) eqn:Heq;
      [| cbn].
    + apply bool_decide_eq_true in Heq. cbv beta iota delta [negb].
      destruct (String.length (new_password passwordForm) <? 8)%nat eqn:Hlen; cbn.
      * apply Nat.ltb_lt in Hlen. split.
        -- intros H. step_cases H.
        -- intros (_ & _ & Hge & _). lia.
      * apply Nat.ltb_ge in Hlen. split.
        -- walk_ui env; intros H; step_cases H;
             injection H as ->; repeat split; eauto.
        -- intros (_ & _ & _ & ->). walk_ui env;
             repeat first [apply list_elem_of_here | apply list_elem_of_further].
    + apply bool_decide_eq_false in Heq. split.
      * intros H. step_cases H.
      * intros (_ & Hc & _). contradiction.
  - split.
    + intros H. step_cases H.
    + intros ([u Hu] & _). discriminate Hu.
Qed.

(** A password update that was sent reports success exactly when the call
    resolved without error, and exactly then it also empties the password
    form, closes it and shows the success notice; in every other case it
    reports the failure.  Either way the promise resolves and the last step
    clears the saving flag. *)
Theorem handlePasswordUpdate_outcome (env : UiEnv) (u : User)
    (passwordForm : PasswordForm) :
  new_password passwordForm = confirm_password passwordForm ->
  8 <= String.length (new_password passwordForm) ->
  let t := steps env (handlePasswordUpdate (Some u) passwordForm) in
  settles env (handlePasswordUpdate (Some u) passwordForm) = Resolved () /\
  last t = Some (Did (SetIsSaving false)) /\
  (Did (SetSuccess (Some "Password updated successfully")) ∈ t <->
   env (UpdateUserPassword (new_password passwordForm))
     = Resolved {| update_error := None |}) /\
  (Did (SetPasswordForm empty_password_form) ∈ t <->
   Did (SetSuccess (Some "Password updated successfully")) ∈ t) /\
  (Did (SetShowPasswordForm false) ∈ t <->
   Did (SetSuccess (Some "Password updated successfully")) ∈ t) /\
  (Did (Notice_ (ToastSuccess "Password updated successfully")) ∈ t <->
   Did (SetSuccess (Some "Password updated successfully")) ∈ t) /\
  (Did (SetError (Some "Failed to update password")) ∈ t <->
   Did (SetSuccess (Some "Password updated successfully")) ∉ t).
Proof.
  intros Heq Hlen. cbv zeta. unfold settles, steps, handlePasswordUpdate.
  rewrite (bool_decide_eq_true_2 _ Heq). cbv beta iota delta [negb].
  apply Nat.ltb_ge in Hlen. rewrite Hlen. cbn.
  destruct (env (UpdateUserPassword (new_password passwordForm)))
    as [[[e|]]|?] eqn:Eup; cbn;
    (split; [reflexivity |]); (split; [reflexivity |]); repeat split;
    try (intros H; step_cases H; fail);
    try discriminate;
    try (intros _; repeat first [apply list_elem_of_here | apply list_elem_of_further]; fail);
    try (intros H; exfalso; apply H;
         repeat first [apply list_elem_of_here | apply list_elem_of_further]; fail);
    try (intros _ H; step_cases H; fail).
Qed.

Lemma handlePasswordUpdate_outcome_witness :
  Did (SetSuccess (Some "Password updated successfully"))
    ∈ steps alice_logs_in
        (handlePasswordUpdate (Some (Sample.user_of "alice"))
           {| current_password := ""; new_password := "12345678";
              confirm_password := "12345678" |}).
Proof.
  destruct (handlePasswordUpdate_outcome alice_logs_in (Sample.user_of "alice")
              {| current_password := ""; new_password := "12345678";
                 confirm_password := "12345678" |} eq_refl)
    as (_ & _ & H & _).
  - simpl. lia.
  - apply H. reflexivity.
Defined.

(** [handleLogout] always leaves for [/login] and announces the logout:
    [signOut] swallows a failed remote call, so the [catch] of the page is
    never entered.  When the remote sign-out rejects, the provider's state is
    not touched at all, and the user sees the error notice of [signOut]
    followed by the success notice of the page. *)
Theorem handleLogout_always_leaves (env : UiEnv) :
  let t := steps env handleLogout in
  settles env handleLogout = Resolved () /\
  Did (Navigate "/login") ∈ t /\
  last t = Some (Did (Notice_ (ToastSuccess "Logged out successfully"))) /\
  Did (Notice_ (ToastError "Error logging out")) ∉ t /\
  (forall e, env (Shared AuthSignOut) = Rejected e ->
     provider_actions t = [] /\
     Did (Notice_ (ToastError "Error signing out")) ∈ t) /\
  (forall r, env (Shared AuthSignOut) = Resolved r ->
     provider_actions t = [ActSetUser None; ActSetProfile None]).
Proof.
  cbv zeta. unfold settles, steps, handleLogout, signOut. cbn.
  destruct (env (Shared AuthSignOut)) as [r|e] eqn:Eout; cbn;
    (split; [reflexivity |]);
    (split; [repeat first [apply list_elem_of_here | apply list_elem_of_further] |]);
    (split; [reflexivity |]);
    (split; [intros H; step_cases H |]);
    split; intros x Hx; try discriminate Hx; try reflexivity.
  split; [reflexivity |].
  repeat first [apply list_elem_of_here | apply list_elem_of_further].
Qed.

Lemma handleLogout_always_leaves_witness :
  provider_actions
    (steps (ui_env offline (Rejected "unused") (Rejected "unused")
              (Rejected "unused") (Rejected "unused")) handleLogout) = [] /\
  Did (Notice_ (ToastError "Error signing out"))
    ∈ steps (ui_env offline (Rejected "unused") (Rejected "unused")
               (Rejected "unused") (Rejected "unused")) handleLogout.
Proof.
  destruct (handleLogout_always_leaves
              (ui_env offline (Rejected "unused") (Rejected "unused")
                 (Rejected "unused") (Rejected "unused")))
    as (_ & _ & _ & _ & H & _).
  apply (H "Failed to fetch"). reflexivity.
Defined.

(** A sign-in that the identity store answers with an error shows that
    error's message verbatim and goes no further: no profile is looked up,
    nothing is signed out, nothing is navigated to. *)
Theorem handleLogin_auth_error (env : UiEnv) (formData : LoginFormData)
    (now message : string) (u : option User) :
  form_email formData <> "" -> form_password formData <> "" ->
  env (SignInWithPassword (form_email formData) (form_password formData))
    = Resolved {| auth_user := u; auth_error := Some message |} ->
  steps env (handleLogin formData now) =
    [Did (SetError None); Did (SetPageLoading true);
     Asked (SignInWithPassword (form_email formData) (form_password formData));
     Did (SetError (Some message)); Did (SetPageLoading false)].
Proof.
  intros He Hp Hin. unfold steps, handleLogin. cbn.
  rewrite (bool_decide_eq_false_2 _ He), (bool_decide_eq_false_2 _ Hp). cbn.
  rewrite Hin. reflexivity.
Qed.

Lemma handleLogin_auth_error_witness :
  steps
    (ui_env store
       (Resolved {| auth_user := None;
                    auth_error := Some "Invalid login credentials" |})
       (Rejected "unused") (Resolved ()) (Rejected "unused"))
    (handleLogin alice_form "2024-01-01T00:00:00.000Z") =
    [Did (SetError None); Did (SetPageLoading true);
     Asked (SignInWithPassword "alice@example.org" "correct horse");
     Did (SetError (Some "Invalid login credentials"));
     Did (SetPageLoading false)].
Proof.
  apply (handleLogin_auth_error _ alice_form "2024-01-01T00:00:00.000Z"
           "Invalid login credentials" None);
    [discriminate | discriminate | reflexivity].
Defined.

Lemma updateUserLoginInfo_counts_witness :
  Asked (UpdateLoginInfo "alice" "2024-01-01T00:00:00.000Z" 1)
    ∈ steps
        (ui_env store (Rejected "unused")
           (Resolved {| currentProfile := Some None |}) (Resolved ())
           (Rejected "unused"))
        (updateUserLoginInfo "alice" "2024-01-01T00:00:00.000Z").
Proof.
  destruct (updateUserLoginInfo_counts
              (ui_env store (Rejected "unused")
                 (Resolved {| currentProfile := Some None |}) (Resolved ())
                 (Rejected "unused"))
              "alice" "2024-01-01T00:00:00.000Z") as [_ H].
  apply H. repeat split. exists None. split; reflexivity.
Defined.

Lemma handlePasswordUpdate_guard_witness :
  Asked (UpdateUserPassword "12345678")
    ∈ steps alice_logs_in
        (handlePasswordUpdate (Some (Sample.user_of "alice"))
           {| current_password := "not checked"; new_password := "12345678";
              confirm_password := "12345678" |}).
Proof.
  destruct (handlePasswordUpdate_guard alice_logs_in
              (Some (Sample.user_of "alice"))
              {| current_password := "not checked"; new_password := "12345678";
                 confirm_password := "12345678" |}) as [H _].
  apply H. split; [eexists; reflexivity |].
  split; [reflexivity |]. split; [simpl; lia | reflexivity].
Defined.

End Pages.

(** ** Overlapping auth events *)

Module Overlap.

Ltac walk_rest :=
  repeat (cbn;
    match goal with
    | |- True => exact I
    | |- _ /\ _ => split
    | |- forall o : Outcome _, _ => intros [[]|?]
    | |- context [match ?x with Some _ => _ | None => _ end] => destruct x
    | |- context [if ?b then _ else _] => destruct b eqn:?
    end).

Lemma user_kept (cur : option User) (s : AuthState) (a : Action) :
  never_sets_user a -> st_user s = cur -> st_user (apply_action s a) = cur.
Proof. destruct a; simpl; intros Ha Hs; [destruct Ha | | | |]; exact Hs. Qed.

(** An auth event installs its identity at once; what it leaves suspended
    never calls [setUser] again. *)
Lemma event_good (c : Config) (cur : option User) (event : string)
    (sess : option Session) :
  config_good never_sets_user (fun s => st_user s = cur) c ->
  config_good never_sets_user (fun s => st_user s = session_user <$> sess)
    (step c (AuthEvent event sess)).
Proof.
  intros [_ Hpk]. destruct c as [s pk j]. simpl in Hpk.
  destruct sess as [sess|]; unfold step, start; cbn.
  - split; [reflexivity |]. simpl. apply Forall_app. split; [exact Hpk |].
    constructor; [| constructor].
    unfold fetchUserProfile. walk_rest.
  - split; [reflexivity |]. simpl. rewrite app_nil_r. exact Hpk.
Qed.

Lemma identity_kept (ls : list Label) (c : Config) (cur : option User) :
  config_good never_sets_user (fun s => st_user s = cur) c ->
  events_and_settlements ls ->
  config_good never_sets_user
    (fun s => st_user s = foldl identity_step cur ls) (exec c ls).
Proof.
  revert c cur. induction ls as [|l ls IH]; intros c cur Hc Hls; [exact Hc |].
  apply Forall_cons in Hls as [Hl Hls]. simpl.
  destruct l as [| event sess | | | i env]; try contradiction.
  - apply IH; [| exact Hls]. apply (event_good c cur). exact Hc.
  - apply IH; [| exact Hls].
    apply (Provider.step_good never_sets_user (fun s => st_user s = cur)
             (user_kept cur) c (Settle i env) I Hc).
Qed.

Lemma identity_of_last_event (ls : list Label) :
  events_and_settlements ls ->
  st_user (auth (exec initial_config ls)) = identity_after ls.
Proof.
  intros Hls.
  apply (identity_kept ls initial_config None); [| exact Hls].
  split; [reflexivity | constructor].
Qed.

(** When the fetch of an event settles with an active, unblocked profile,
    that profile is stored next to whatever identity the state holds. *)
Lemma settle_fetch (c : Config) (i : nat) (env : Env) (event : string)
    (sess : Session) (tk : Task) (p : UserProfile) :
  pending_fetch event sess = Some tk ->
  parked c !! i = Some tk ->
  fetch_finds env (user_id (session_user sess)) p ->
  blocked_or_inactive p = false ->
  auth (step c (Settle i env)) =
    {| st_user := st_user (auth c); st_profile := Some p; isLoading := false |}.
Proof.
  unfold pending_fetch. cbn. intros [= <-] Hi Hfind Hok.
  apply SessionManager.fetched_finds in Hfind. unfold fetched in Hfind.
  unfold step. rewrite Hi. unfold resume, start, fetchUserProfile. cbn.
  destruct (select_outcome env (user_id (session_user sess)))
    as [[[q|] [e|]]|?]; cbn; try discriminate Hfind.
  injection Hfind as ->. rewrite Hok. reflexivity.
Qed.

(** C3 (amended): however auth events and the settling of their fetches
    and sign-out calls interleave, the identity in the final state is that of
    the last event.  The profile is the result of the fetch that settled
    last: when a fetch settles with an active, unblocked profile, that
    profile is stored next to the last event's identity, whichever event the
    fetch was issued for; so the state reflects the last event's profile when
    its fetch is the last to settle, in particular when events are handled
    one at a time (then no identity and no profile after an event without
    identity, and the event's identity with its own profile after an event
    whose fetch finds an active, unblocked profile). *)
Theorem last_event_identity_and_profile :
  (forall ls,
     events_and_settlements ls ->
     st_user (auth (exec initial_config ls)) = identity_after ls) /\
  (forall ls i env event sess tk p,
     events_and_settlements ls ->
     pending_fetch event sess = Some tk ->
     parked (exec initial_config ls) !! i = Some tk ->
     fetch_finds env (user_id (session_user sess)) p ->
     blocked_or_inactive p = false ->
     auth (exec initial_config (ls ++ [Settle i env])) =
       {| st_user := identity_after ls; st_profile := Some p;
          isLoading := false |}) /\
  (forall evs event sess env,
     let c := exec initial_config (one_at_a_time (evs ++ [(event, sess, env)])) in
     parked c = [] /\
     match sess with
     | None => st_user (auth c) = None /\ st_profile (auth c) = None
     | Some se =>
         forall p, fetch_finds env (user_id (session_user se)) p ->
                   blocked_or_inactive p = false ->
                   st_user (auth c) = Some (session_user se) /\
                   st_profile (auth c) = Some p
     end).
Proof.
  split; [exact identity_of_last_event |]. split.
  - intros ls i env event sess tk p Hls Htk Hi Hfind Hok.
    rewrite SessionManager.exec_app.
    change (exec (exec initial_config ls) [Settle i env])
      with (step (exec initial_config ls) (Settle i env)).
    rewrite (settle_fetch _ i env event sess tk p Htk Hi Hfind Hok).
    rewrite (identity_of_last_event ls Hls). reflexivity.
  - exact SessionManager.one_at_a_time_last_event.
Qed.

Lemma last_event_identity_and_profile_witness :
  st_user (auth (exec initial_config rapid_relogin)) = Some (Sample.user_of "bob") /\
  auth (exec initial_config
          ([AuthEvent "SIGNED_IN" (Some (Sample.session_of "alice"));
            AuthEvent "SIGNED_OUT" None;
            AuthEvent "SIGNED_IN" (Some (Sample.session_of "bob"));
            Settle 0 store] ++ [Settle 0 store])) =
    {| st_user := Some (Sample.user_of "bob"); st_profile := Some Sample.bob;
       isLoading := false |} /\
  st_profile
    (auth (exec initial_config
             (one_at_a_time
                ([("SIGNED_IN", Some (Sample.session_of "alice"), store);
                  ("SIGNED_OUT", None, store)] ++
                 [("SIGNED_IN", Some (Sample.session_of "bob"), store)]))))
  = Some Sample.bob.
Proof.
  destruct last_event_identity_and_profile as (Hid & Hlast & Hseq).
  split; [| split].
  - apply (Hid rapid_relogin). repeat constructor.
  - eapply (Hlast
              [AuthEvent "SIGNED_IN" (Some (Sample.session_of "alice"));
               AuthEvent "SIGNED_OUT" None;
               AuthEvent "SIGNED_IN" (Some (Sample.session_of "bob"));
               Settle 0 store]
              0 store "SIGNED_IN" (Sample.session_of "bob")).
    + repeat constructor.
    + reflexivity.
    + reflexivity.
    + eexists. repeat split.
    + reflexivity.
  - destruct (Hseq [("SIGNED_IN", Some (Sample.session_of "alice"), store);
                    ("SIGNED_OUT", None, store)]
                "SIGNED_IN" (Some (Sample.session_of "bob")) store) as [_ H].
    apply (H Sample.bob).
    + eexists. repeat split.
    + reflexivity.
Defined.

End Overlap.
